(** * NCBI GenBank data retriever: a shallow embedding of
      [s28192_2025-2.py] and the properties of its pipeline.

    The script is sequential Python: a retriever object with three
    attributes, two remote calls through [Bio.Entrez], a filtering loop,
    a [pandas] table written to disk, and a [matplotlib] chart.  Every
    effect is threaded through one explicit program state:

    - the retriever's attributes ([hasattr] is a test on an [option]);
    - the log of requests sent to the remote service;
    - the console output;
    - the store of [DataFrame] objects, addressed by reference;
    - the file system, a finite map from file names to contents;
    - pyplot's stack of open figures.

    Python's [int] is unbounded, so integers are [Z]; [len] of a sequence
    is the [Z] image of a [nat] length. *)

From Stdlib Require Import ZArith List String Ascii Lia Sorting.Sorted Sorting.Permutation.
From stdpp Require Import base option list gmap strings pretty.

Local Open Scope string_scope.
Local Open Scope Z_scope.
Local Open Scope list_scope.

(* ===================================================================== *)
(** ** Data *)
(* ===================================================================== *)

(** A parsed GenBank record, as far as the script reads it:
    [rec.id], [rec.seq] and [rec.description]. *)
Record SeqRecord := mkSeqRecord {
  rec_id : string;
  rec_seq : string;
  rec_description : string
}.

(** [len(rec.seq)] *)
Definition seq_len (rec : SeqRecord) : Z := Z.of_nat (String.length (rec_seq rec)).

(** The tuple [(rec.id, length, rec.description)] appended to [data]. *)
Definition Row : Type := string * Z * string.

Definition Accession (r : Row) : string := fst (fst r).
Definition Length (r : Row) : Z := snd (fst r).
Definition Description (r : Row) : string := snd r.

(** A [pandas.DataFrame] of the result schema: the column labels it was
    built with and its rows, in index order. *)
Record DataFrame := mkDataFrame {
  columns : list string;
  rows : list Row
}.

(** A matplotlib figure, as far as [plot_lengths] configures it. *)
Record Figure := mkFigure {
  figsize : option (Z * Z);
  lines : list (list string * list Z * string);
  xticks_rotation : option Z;
  xticks_fontsize : option Z;
  xlabel : option string;
  ylabel : option string;
  title : option string;
  tight : bool
}.

(** What a file holds: the CSV document written by [DataFrame.to_csv]
    with [index=False] (the header row with the column labels, then one
    data row per table row, no index column), or the image rendered by
    [savefig].  Quoting and line endings are pandas' business and are not
    part of the document. *)
Inductive File :=
| CsvFile (header : list string) (body : list Row)
| ImageFile (fig : Figure).

(** Number of rows of the CSV document: the header and the data rows. *)
Definition csv_row_count (f : File) : option nat :=
  match f with
  | CsvFile _ body => Some (S (length body))
  | ImageFile _ => None
  end.

Definition csv_data_rows (f : File) : option (list Row) :=
  match f with
  | CsvFile _ body => Some body
  | ImageFile _ => None
  end.

(** Python exceptions, with the text [str(e)] prints. *)
Inductive exn :=
| KeyError (key : string)
| IndexError (msg : string)
| ValueError (msg : string)
| IOError (msg : string)
| AttributeError (attr : string)
| ReferenceError (msg : string)
| EOFError (msg : string).

Definition str_exn (e : exn) : string :=
  match e with
  | KeyError k => "'" +:+ k +:+ "'"
  | IndexError m => m
  | ValueError m => m
  | IOError m => m
  | AttributeError a => "'NCBIRetriever' object has no attribute '" +:+ a +:+ "'"
  | ReferenceError m => m
  | EOFError m => m
  end.

Inductive result (A : Type) :=
| Ret (a : A)
| Raise (e : exn).
Arguments Ret {A} a.
Arguments Raise {A} e.

(* ===================================================================== *)
(** ** The remote service *)
(* ===================================================================== *)

(** The requests the script sends through [Bio.Entrez]. *)
Inductive Request :=
| EfetchTaxonomy (id : string)
| EsearchNucleotide (term : string) (usehistory : string)
| EfetchNucleotide (rettype retmode : string) (retstart retmax : Z)
                   (webenv query_key : string).

Definition is_nucleotide_fetch (q : Request) : bool :=
  match q with
  | EfetchNucleotide _ _ _ _ _ _ => true
  | _ => false
  end.

(** The parsed answer of [esearch].  [Count] is the outcome of
    [int(search_results["Count"])]: a [KeyError] when the key is absent, a
    [ValueError] when the text is no integer literal, else the integer.
    [WebEnv] and [QueryKey] are dictionary entries that may be absent. *)
Record SearchResults := mkSearchResults {
  Count : result Z;
  WebEnv : option string;
  QueryKey : option string
}.

(** What the service answers.  Each field is the outcome of the call
    followed by its parser ([Entrez.read] or [SeqIO.parse]); a transport or
    parse failure is a raised exception.  A taxonomy entry is a dictionary
    from field names to text. *)
Record Remote := mkRemote {
  taxonomy_read : string -> result (list (gmap string string));
  esearch_read : string -> string -> result SearchResults;
  efetch_parse : Z -> Z -> string -> string -> result (list SeqRecord)
}.

(* ===================================================================== *)
(** ** Program state and the effect monad *)
(* ===================================================================== *)

(** The attributes of the one [NCBIRetriever] instance; [None] is
    "attribute not set" ([hasattr] is [False]). *)
Record Retriever := mkRetriever {
  self_webenv : option string;
  self_query_key : option string;
  self_count : option Z
}.

Record State := mkState {
  entrez_config : option (string * string * string);
  self : Retriever;
  requests : list Request;
  stdout : list string;
  frames : list DataFrame;
  files : gmap string File;
  figures : list Figure
}.

Definition set_entrez c (s : State) : State :=
  mkState (Some c) (self s) (requests s) (stdout s) (frames s) (files s) (figures s).
Definition set_self r (s : State) : State :=
  mkState (entrez_config s) r (requests s) (stdout s) (frames s) (files s) (figures s).
Definition set_requests q (s : State) : State :=
  mkState (entrez_config s) (self s) q (stdout s) (frames s) (files s) (figures s).
Definition set_stdout o (s : State) : State :=
  mkState (entrez_config s) (self s) (requests s) o (frames s) (files s) (figures s).
Definition set_frames f (s : State) : State :=
  mkState (entrez_config s) (self s) (requests s) (stdout s) f (files s) (figures s).
Definition set_files f (s : State) : State :=
  mkState (entrez_config s) (self s) (requests s) (stdout s) (frames s) f (figures s).
Definition set_figures f (s : State) : State :=
  mkState (entrez_config s) (self s) (requests s) (stdout s) (frames s) (files s) f.

(** A computation runs on a state and ends in a value or a raised
    exception; the state it reached is kept in both cases, as Python keeps
    the assignments made before a [raise]. *)
Definition M (A : Type) : Type := State -> result A * State.

Definition ret {A} (a : A) : M A := fun s => (Ret a, s).
Definition raise {A} (e : exn) : M A := fun s => (Raise e, s).

Definition bind {A B} (m : M A) (k : A -> M B) : M B :=
  fun s =>
    match m s with
    | (Ret a, s') => k a s'
    | (Raise e, s') => (Raise e, s')
    end.

(** [try: m except Exception as e: h e] *)
Definition try_except {A} (m : M A) (h : exn -> M A) : M A :=
  fun s =>
    match m s with
    | (Ret a, s') => (Ret a, s')
    | (Raise e, s') => h e s'
    end.

Definition lift {A} (r : result A) : M A := fun s => (r, s).
Definition get : M State := fun s => (Ret s, s).
Definition modify (f : State -> State) : M unit := fun s => (Ret tt, f s).

Declare Scope py_scope.
Delimit Scope py_scope with py.
Notation "'let*' x ':=' m 'in' k" := (bind m (fun x => k))
  (at level 10, x name, m at level 100, k at level 200) : py_scope.
Notation "m '>>' k" := (bind m (fun _ => k))
  (at level 90, right associativity) : py_scope.
Local Open Scope py_scope.

Definition print (line : string) : M unit :=
  modify (fun s => set_stdout (stdout s ++ [line]) s).

Definition send (q : Request) : M unit :=
  modify (fun s => set_requests (requests s ++ [q]) s).

(** [d[key]] on a dictionary *)
Definition subscript (d : gmap string string) (key : string) : result string :=
  match d !! key with
  | Some v => Ret v
  | None => Raise (KeyError key)
  end.

(** [l[0]] on a list *)
Definition first {A} (l : list A) : result A :=
  match l with
  | x :: _ => Ret x
  | [] => Raise (IndexError "list index out of range")
  end.

Definition entry {A} (key : string) (o : option A) : result A :=
  match o with
  | Some v => Ret v
  | None => Raise (KeyError key)
  end.

(* ===================================================================== *)
(** ** [class NCBIRetriever] *)
(* ===================================================================== *)

Definition fresh_retriever : Retriever := mkRetriever None None None.

(** [__init__]: a new object without attributes; the three [Entrez]
    module settings are assigned. *)
Definition NCBIRetriever_init (email api_key : string) : M unit :=
  modify (set_entrez (email, api_key, "BioScriptEx10")) >>
  modify (set_self fresh_retriever).

Definition set_webenv (w : string) (s : State) : State :=
  set_self (mkRetriever (Some w) (self_query_key (self s)) (self_count (self s))) s.
Definition set_query_key (k : string) (s : State) : State :=
  set_self (mkRetriever (self_webenv (self s)) (Some k) (self_count (self s))) s.
Definition set_count (c : Z) (s : State) : State :=
  set_self (mkRetriever (self_webenv (self s)) (self_query_key (self s)) (Some c)) s.

(** [f"txid{taxid}[Organism]"] *)
Definition search_term (taxid : string) : string := "txid" +:+ taxid +:+ "[Organism]".

Definition search_taxid (srv : Remote) (taxid : string) : M (option Z) :=
  print ("Searching for records with taxID: " +:+ taxid) >>
  try_except
    (send (EfetchTaxonomy taxid) >>
     let* records := lift (taxonomy_read srv taxid) in
     let* record0 := lift (first records) in
     let* organism_name := lift (subscript record0 "ScientificName") in
     print ("Organism: " +:+ organism_name +:+ " (TaxID: " +:+ taxid +:+ ")") >>
     send (EsearchNucleotide (search_term taxid) "y") >>
     let* search_results := lift (esearch_read srv (search_term taxid) "y") in
     let* count := lift (Count search_results) in
     if count =? 0 then
       print ("No records found for " +:+ organism_name) >>
       ret None
     else
       print ("Found " +:+ pretty count +:+ " records") >>
       let* w := lift (entry "WebEnv" (WebEnv search_results)) in
       modify (set_webenv w) >>
       let* k := lift (entry "QueryKey" (QueryKey search_results)) in
       modify (set_query_key k) >>
       modify (set_count count) >>
       ret (Some count))
    (fun e =>
       print ("Error searching TaxID " +:+ taxid +:+ ": " +:+ str_exn e) >>
       ret None).

(** [hasattr(self, name)] and [self.name] on an attribute slot. *)
Definition hasattr {A} (slot : option A) : bool :=
  match slot with
  | Some _ => true
  | None => false
  end.

Definition getattr {A} (name : string) (slot : option A) : result A :=
  match slot with
  | Some v => Ret v
  | None => Raise (AttributeError name)
  end.

(** The precondition of a fetch: both session attributes are set. *)
Definition has_session (r : Retriever) : bool :=
  hasattr (self_webenv r) && hasattr (self_query_key r).

Definition fetch_records (srv : Remote) (start max_records : Z) : M (list SeqRecord) :=
  let* s := get in
  if negb (hasattr (self_webenv (self s))) || negb (hasattr (self_query_key (self s))) then
    print "No search results to fetch. Run search_taxid() first." >>
    ret []
  else
    try_except
      (let batch_size := Z.min max_records 500 in
       let* w := lift (getattr "webenv" (self_webenv (self s))) in
       let* k := lift (getattr "query_key" (self_query_key (self s))) in
       send (EfetchNucleotide "gb" "text" start batch_size w k) >>
       lift (efetch_parse srv start batch_size w k))
      (fun e =>
         print ("Error fetching records: " +:+ str_exn e) >>
         ret []).

(* ===================================================================== *)
(** ** [save_to_csv] *)
(* ===================================================================== *)

(** One turn of the [for rec in records] loop: [data] after the turn. *)
Definition append_if_in_range (min_len max_len : Z) (data : list Row) (rec : SeqRecord)
  : list Row :=
  let length := seq_len rec in
  if (min_len <=? length) && (length <=? max_len)
  then data ++ [(rec_id rec, length, rec_description rec)]
  else data.

(** [data] when the loop is over, started from [data = []]. *)
Definition collect (records : list SeqRecord) (min_len max_len : Z) : list Row :=
  fold_left (append_if_in_range min_len max_len) records [].

(** Object allocation: the new table gets the next free reference. *)
Definition new_frame (df : DataFrame) : M nat :=
  fun s => (Ret (length (frames s)), set_frames (frames s ++ [df]) s).

Definition frame_at (ref : nat) : M DataFrame :=
  fun s =>
    match frames s !! ref with
    | Some df => (Ret df, s)
    | None => (Raise (ReferenceError "no such object"), s)
    end.

(** [df.to_csv(filename, index=False)]: the file is created or
    overwritten.  The write itself is taken to succeed. *)
Definition to_csv (df : nat) (filename : string) : M unit :=
  let* d := frame_at df in
  modify (fun s => set_files (<[filename := CsvFile (columns d) (rows d)]> (files s)) s).

Definition save_to_csv (records : list SeqRecord) (filename : string)
    (min_len max_len : Z) : M nat :=
  let data := collect records min_len max_len in
  let* df := new_frame (mkDataFrame ["Accession"; "Length"; "Description"] data) in
  to_csv df filename >>
  ret df.

(* ===================================================================== *)
(** ** [plot_lengths] *)
(* ===================================================================== *)

(** Order of [sort_values(by="Length", ascending=False)]. *)
Definition longer_first (a b : Row) : Prop := Length b <= Length a.

(** The place of a row among rows already in descending order: before
    the first row that is not longer than it. *)
Fixpoint insert_row (row : Row) (sorted : list Row) : list Row :=
  match sorted with
  | [] => [row]
  | next :: rest =>
      if Length next <=? Length row
      then row :: next :: rest
      else next :: insert_row row rest
  end.

(** Rows in descending order of length, rows of equal length in the
    order they had. *)
Fixpoint sort_rows_desc (table : list Row) : list Row :=
  match table with
  | [] => []
  | row :: rest => insert_row row (sort_rows_desc rest)
  end.

(** [df.sort_values(by="Length", ascending=False)] builds a new table
    with the same columns and the rows in descending order of length; the
    table it is called on is left as it is.  Rows of equal length are kept
    in their input order here, which is what pandas does with a stable
    sort; with its default sort kind pandas promises no order among them,
    so the theorems state the sorted copy up to the order of ties. *)
Definition sort_values_length_desc (d : DataFrame) : DataFrame :=
  mkDataFrame (columns d) (sort_rows_desc (rows d)).

Definition empty_figure (size : option (Z * Z)) : Figure :=
  mkFigure size [] None None None None None false.

(** pyplot keeps a stack of open figures, the current one first; a call
    that needs a figure when none is open creates a default one. *)
Definition on_current_figure (f : Figure -> Figure) : M unit :=
  modify (fun s =>
    match figures s with
    | fig :: rest => set_figures (f fig :: rest) s
    | [] => set_figures [f (empty_figure None)] s
    end).

Definition plt_figure (size : Z * Z) : M unit :=
  modify (fun s => set_figures (empty_figure (Some size) :: figures s) s).

Definition plt_plot (x : list string) (y : list Z) (marker : string) : M unit :=
  on_current_figure (fun g =>
    mkFigure (figsize g) (lines g ++ [(x, y, marker)]) (xticks_rotation g)
             (xticks_fontsize g) (xlabel g) (ylabel g) (title g) (tight g)).

Definition plt_xticks (rotation fontsize : Z) : M unit :=
  on_current_figure (fun g =>
    mkFigure (figsize g) (lines g) (Some rotation) (Some fontsize)
             (xlabel g) (ylabel g) (title g) (tight g)).

Definition plt_xlabel (l : string) : M unit :=
  on_current_figure (fun g =>
    mkFigure (figsize g) (lines g) (xticks_rotation g) (xticks_fontsize g)
             (Some l) (ylabel g) (title g) (tight g)).

Definition plt_ylabel (l : string) : M unit :=
  on_current_figure (fun g =>
    mkFigure (figsize g) (lines g) (xticks_rotation g) (xticks_fontsize g)
             (xlabel g) (Some l) (title g) (tight g)).

Definition plt_title (l : string) : M unit :=
  on_current_figure (fun g =>
    mkFigure (figsize g) (lines g) (xticks_rotation g) (xticks_fontsize g)
             (xlabel g) (ylabel g) (Some l) (tight g)).

Definition plt_tight_layout : M unit :=
  on_current_figure (fun g =>
    mkFigure (figsize g) (lines g) (xticks_rotation g) (xticks_fontsize g)
             (xlabel g) (ylabel g) (title g) true).

(** [plt.savefig(output_file)]: the current figure is rendered to the
    file, created or overwritten.  The name is used as it is, which is
    what matplotlib does for a name with an image extension such as the
    [.png] of the names [main] builds (a name without extension would get
    one appended, an unknown extension would be refused).  The write
    itself is taken to succeed. *)
Definition plt_savefig (output_file : string) : M unit :=
  on_current_figure (fun g => g) >>
  modify (fun s =>
    match figures s with
    | fig :: _ => set_files (<[output_file := ImageFile fig]> (files s)) s
    | [] => s
    end).

Definition plt_close : M unit :=
  modify (fun s => set_figures (tail (figures s)) s).

(** The parameter [df] is a reference; the first statement rebinds the
    local name to the sorted copy, so the columns plotted are the copy's. *)
Definition plot_lengths (df : nat) (output_file : string) : M unit :=
  let* given := frame_at df in
  let* df := new_frame (sort_values_length_desc given) in
  let* sorted := frame_at df in
  plt_figure (12, 6) >>
  plt_plot (map Accession (rows sorted)) (map Length (rows sorted)) "o" >>
  plt_xticks 90 6 >>
  plt_xlabel "GenBank Accession" >>
  plt_ylabel "Sequence Length" >>
  plt_title "Filtered Sequence Lengths" >>
  plt_tight_layout >>
  plt_savefig output_file >>
  plt_close.

(* ===================================================================== *)
(** ** [main] *)
(* ===================================================================== *)

(** The five answers read from the console, the two lengths after
    [int(...)].  [main] below is the function from line 95 on, for answers
    already read; [main_console] further down puts lines 89 to 93 in front
    of it. *)
Record Inputs := mkInputs {
  email : string;
  api_key : string;
  taxid : string;
  min_len : Z;
  max_len : Z
}.

(** [not count] for [count] either [None] or an [int]. *)
Definition falsy (count : option Z) : bool :=
  match count with
  | None => true
  | Some c => c =? 0
  end.

Definition csv_name (taxid : string) : string := "taxid_" +:+ taxid +:+ "_filtered.csv".
Definition plot_name (taxid : string) : string := "taxid_" +:+ taxid +:+ "_plot.png".

Definition newline : string := String (ascii_of_nat 10) EmptyString.

Definition main (srv : Remote) (inp : Inputs) : M unit :=
  NCBIRetriever_init (email inp) (api_key inp) >>
  let* count := search_taxid srv (taxid inp) in
  if falsy count then
    print "No records found. Exiting."
  else
    print (newline +:+ "Fetching records...") >>
    let* records := fetch_records srv 0 50 in
    let csv_file := csv_name (taxid inp) in
    let* df := save_to_csv records csv_file (min_len inp) (max_len inp) in
    print ("Saved filtered records to " +:+ csv_file) >>
    let plot_file := plot_name (taxid inp) in
    plot_lengths df plot_file >>
    print ("Saved plot to " +:+ plot_file).

(** A state before anything ran. *)
Definition initial_state : State :=
  mkState None fresh_retriever [] [] [] ∅ [].

(* ===================================================================== *)
(** ** Reference definitions for the filter *)
(* ===================================================================== *)

(** The projection of a record to (accession, length, description). *)
Definition row_of (rec : SeqRecord) : Row :=
  (rec_id rec, seq_len rec, rec_description rec).

(** [lo <= length(r) <= hi], both bounds included. *)
Definition in_range (lo hi : Z) (rec : SeqRecord) : bool :=
  (lo <=? seq_len rec) && (seq_len rec <=? hi).

(** The filter as the specification words it: keep the records within
    the bounds, then project each. *)
Definition filter_and_tabulate_spec (records : list SeqRecord) (lo hi : Z) : list Row :=
  map row_of (List.filter (in_range lo hi) records).

(** The length filter applied to rows of a table, on the Length column. *)
Definition length_filter (lo hi : Z) (table : list Row) : list Row :=
  List.filter (fun row => (lo <=? Length row) && (Length row <=? hi)) table.

Definition result_columns : list string := ["Accession"; "Length"; "Description"].

(** The table [save_to_csv] returns: the object its result refers to in
    the state it leaves. *)
Definition result_table (records : list SeqRecord) (filename : string) (lo hi : Z)
    (s : State) : option DataFrame :=
  match save_to_csv records filename lo hi s with
  | (Ret df, s') => frames s' !! df
  | (Raise _, _) => None
  end.

(** The file [save_to_csv] leaves under [filename]. *)
Definition written_csv (records : list SeqRecord) (filename : string) (lo hi : Z)
    (s : State) : option File :=
  files (snd (save_to_csv records filename lo hi s)) !! filename.

(** The figure [plot_lengths] draws from the sorted copy. *)
Definition lengths_figure (sorted : DataFrame) : Figure :=
  mkFigure (Some (12, 6))
           [(map Accession (rows sorted), map Length (rows sorted), "o")]
           (Some 90) (Some 6)
           (Some "GenBank Accession") (Some "Sequence Length")
           (Some "Filtered Sequence Lengths") true.

(** The state [main] runs the search in: the retriever just built. *)
Definition started (inp : Inputs) (s : State) : State :=
  set_self fresh_retriever (set_entrez (email inp, api_key inp, "BioScriptEx10") s).

(** No request of the list is a record fetch. *)
Definition no_fetch (new : list Request) : Prop :=
  Forall (fun q => is_nucleotide_fetch q = false) new.

(* ===================================================================== *)
(** ** Sample inputs *)
(* ===================================================================== *)

Definition sample_residues (n : nat) : string :=
  string_of_list_ascii (repeat "A"%char n).

Definition sample_r1 : SeqRecord := mkSeqRecord "AB1.1" (sample_residues 200) "first".
Definition sample_r2 : SeqRecord := mkSeqRecord "AB2.1" (sample_residues 1500) "second".
Definition sample_r3 : SeqRecord := mkSeqRecord "AB3.1" (sample_residues 800) "third".

Definition sample_taxon : gmap string string :=
  {[ "ScientificName" := "Homo sapiens" ]}.

(** A service that knows one organism, reports [count] matches under the
    session ("WE", "1") and serves the three sample records. *)
Definition sample_service (count : Z) : Remote :=
  mkRemote (fun _ => Ret [sample_taxon])
           (fun _ _ => Ret (mkSearchResults (Ret count) (Some "WE") (Some "1")))
           (fun _ _ _ _ => Ret [sample_r1; sample_r2; sample_r3]).

Definition sample_inputs : Inputs := mkInputs "a@b.c" "key" "9606" 100 1000.

(** A state in which a search has stored its session. *)
Definition sample_session_state : State :=
  set_self (mkRetriever (Some "WE") (Some "1") (Some 3)) initial_state.

(** A state holding one result table, under reference 0. *)
Definition sample_table : DataFrame :=
  mkDataFrame result_columns [("AB1.1", 200, "first"); ("AB3.1", 800, "third")].

Definition sample_table_state : State := set_frames [sample_table] initial_state.

(** The organism name the taxonomy lookup of [search_taxid] ends in:
    [Entrez.read(...)[0]["ScientificName"]], or the exception of the step
    that fails. *)
Definition organism_name_of (srv : Remote) (taxid : string) : result string :=
  match taxonomy_read srv taxid with
  | Ret records =>
      match first records with
      | Ret record0 => subscript record0 "ScientificName"
      | Raise e => Raise e
      end
  | Raise e => Raise e
  end.

(** What [fetch_records] hands back for a stored session: the service's
    records, or the empty list when the call or the parser raised. *)
Definition fetched (srv : Remote) (start max_records : Z) (w k : string) : list SeqRecord :=
  match efetch_parse srv start (Z.min max_records 500) w k with
  | Ret records => records
  | Raise _ => []
  end.

(** The points of a table as the chart shows them. *)
Definition points (table : list Row) : list (string * Z) :=
  map (fun row => (Accession row, Length row)) table.

(** The files [main] leaves after a search that returned a count: the
    file system [m] with both outputs written over it. *)
Definition with_outputs (srv : Remote) (inp : Inputs) (w k : string)
    (m : gmap string File) : gmap string File :=
  let table := mkDataFrame result_columns
                 (collect (fetched srv 0 50 w k) (min_len inp) (max_len inp)) in
  <[plot_name (taxid inp) := ImageFile (lengths_figure (sort_values_length_desc table))]>
    (<[csv_name (taxid inp) := CsvFile (columns table) (rows table)]> m).

(** A service given by its three answers, whatever the request. *)
Definition constant_service (taxonomy : result (list (gmap string string)))
    (search : result SearchResults) (fetch : result (list SeqRecord)) : Remote :=
  mkRemote (fun _ => taxonomy) (fun _ _ => search) (fun _ _ _ _ => fetch).

(** The taxonomy database does not know the identifier. *)
Definition sample_unknown_taxon : Remote :=
  constant_service (Ret []) (Ret (mkSearchResults (Ret 3) (Some "WE") (Some "1")))
                   (Ret [sample_r1; sample_r2; sample_r3]).

(** The search answer lacks its query key. *)
Definition sample_no_query_key : Remote :=
  constant_service (Ret [sample_taxon]) (Ret (mkSearchResults (Ret 3) (Some "WE2") None))
                   (Ret [sample_r1; sample_r2; sample_r3]).

(** The record fetch fails in transport. *)
Definition sample_fetch_down : Remote :=
  constant_service (Ret [sample_taxon]) (Ret (mkSearchResults (Ret 3) (Some "WE") (Some "1")))
                   (Raise (IOError "HTTP Error 502: Bad Gateway")).

(* ===================================================================== *)
(** ** The console *)
(* ===================================================================== *)

(** [input(prompt)]: the prompt is written, then a line is taken from
    standard input; [EOFError] when there is none left.  The lines not yet
    read are handed on. *)
Definition input (prompt : string) (stdin : list string) : M (string * list string) :=
  print prompt >>
  match stdin with
  | line :: rest => ret (line, rest)
  | [] => raise (EOFError "EOF when reading a line")
  end.

Section Console.

(** Python's [int] on a string: the integer, or the [ValueError] it
    raises. *)
Variable py_int : string -> result Z.

(** [main] in full, lines 88 to 110: the five prompts, the two
    conversions, then the pipeline. *)
Definition main_console (srv : Remote) (stdin : list string) : M unit :=
  let* email := input "Enter your email address for NCBI: " stdin in
  let* api_key := input "Enter your NCBI API key: " (snd email) in
  let* taxid := input "Enter taxonomic ID (taxid) of the organism: " (snd api_key) in
  let* min_text := input "Enter minimum sequence length: " (snd taxid) in
  let* min_len := lift (py_int (fst min_text)) in
  let* max_text := input "Enter maximum sequence length: " (snd min_text) in
  let* max_len := lift (py_int (fst max_text)) in
  main srv (mkInputs (fst email) (fst api_key) (fst taxid) min_len max_len).

End Console.

(** The five prompts of [main], in the order they are written. *)
Definition prompts : list string :=
  ["Enter your email address for NCBI: ";
   "Enter your NCBI API key: ";
   "Enter taxonomic ID (taxid) of the organism: ";
   "Enter minimum sequence length: ";
   "Enter maximum sequence length: "].

(** A stand-in for [int] that reads the two sample lengths only. *)
Definition sample_int (text : string) : result Z :=
  if String.eqb text "100" then Ret 100
  else if String.eqb text "1000" then Ret 1000
  else Raise (ValueError ("invalid literal for int() with base 10: '" +:+ text +:+ "'")).

(* ===================================================================== *)
(** ** The filtering loop *)
(* ===================================================================== *)

Section Loop.
Variables lo hi : Z.

Lemma loop_from (records : list SeqRecord) (data : list Row) :
  fold_left (append_if_in_range lo hi) records data
  = data ++ filter_and_tabulate_spec records lo hi.
Proof.
  revert data.
  induction records as [|rec records IH]; intros data; simpl.
  - by rewrite app_nil_r.
  - rewrite IH. unfold append_if_in_range, filter_and_tabulate_spec, in_range, row_of.
    simpl. destruct ((lo <=? seq_len rec) && (seq_len rec <=? hi)); simpl.
    + by rewrite <- app_assoc.
    + done.
Qed.

Lemma collect_spec (records : list SeqRecord) :
  collect records lo hi = filter_and_tabulate_spec records lo hi.
Proof. unfold collect. by rewrite loop_from. Qed.

Lemma in_range_bounds (rec : SeqRecord) :
  in_range lo hi rec = true <-> lo <= seq_len rec <= hi.
Proof. unfold in_range. rewrite andb_true_iff, !Z.leb_le. tauto. Qed.

Lemma spec_rows_in_range (records : list SeqRecord) :
  Forall (fun row => lo <= Length row <= hi) (filter_and_tabulate_spec records lo hi).
Proof.
  unfold filter_and_tabulate_spec.
  induction records as [|rec records IH]; simpl; [constructor|].
  destruct (in_range lo hi rec) eqn:E; simpl; [|done].
  constructor; [|done]. by apply in_range_bounds.
Qed.

Lemma spec_sublist (records : list SeqRecord) :
  filter_and_tabulate_spec records lo hi `sublist_of` map row_of records.
Proof.
  unfold filter_and_tabulate_spec.
  induction records as [|rec records IH]; simpl; [constructor|].
  destruct (in_range lo hi rec); simpl; by constructor.
Qed.

Lemma filter_all (records : list SeqRecord) :
  Forall (fun rec => in_range lo hi rec = true) records ->
  List.filter (in_range lo hi) records = records.
Proof.
  induction 1 as [|rec records Hrec _ IH]; simpl; [done|].
  by rewrite Hrec, IH.
Qed.

Lemma filter_none (records : list SeqRecord) :
  Forall (fun rec => in_range lo hi rec = false) records ->
  List.filter (in_range lo hi) records = [].
Proof.
  induction 1 as [|rec records Hrec _ IH]; simpl; [done|].
  by rewrite Hrec.
Qed.

Lemma filter_twice (records : list SeqRecord) :
  List.filter (in_range lo hi) (List.filter (in_range lo hi) records)
  = List.filter (in_range lo hi) records.
Proof.
  apply filter_all, Forall_forall. intros rec Hin.
  apply list_elem_of_In, filter_In in Hin. tauto.
Qed.

Lemma length_filter_keeps (table : list Row) :
  Forall (fun row => lo <= Length row <= hi) table ->
  length_filter lo hi table = table.
Proof.
  unfold length_filter.
  induction 1 as [|row table Hrow _ IH]; simpl; [done|].
  destruct Hrow as [H1 H2]. apply Z.leb_le in H1, H2.
  by rewrite H1, H2, IH.
Qed.
End Loop.

(** What one call of [save_to_csv] does to the state. *)
Lemma save_to_csv_run records filename lo hi s :
  save_to_csv records filename lo hi s
  = (Ret (length (frames s)),
     set_files (<[filename := CsvFile result_columns (collect records lo hi)]> (files s))
       (set_frames (frames s ++ [mkDataFrame result_columns (collect records lo hi)]) s)).
Proof.
  unfold save_to_csv, to_csv, new_frame, frame_at, bind, modify, ret. simpl.
  by rewrite list_lookup_middle.
Qed.

Lemma result_table_eq records filename lo hi s :
  result_table records filename lo hi s
  = Some (mkDataFrame result_columns (collect records lo hi)).
Proof.
  unfold result_table. rewrite save_to_csv_run. simpl.
  by rewrite list_lookup_middle.
Qed.

Lemma written_csv_eq records filename lo hi s :
  written_csv records filename lo hi s
  = Some (CsvFile result_columns (collect records lo hi)).
Proof.
  unfold written_csv. rewrite save_to_csv_run. simpl.
  by rewrite lookup_insert_eq.
Qed.

(* ===================================================================== *)
(** ** Filter and tabulate *)
(* ===================================================================== *)

(** C1.  For every record sequence and every pair of bounds,
    [save_to_csv] returns a table with the columns Accession, Length,
    Description whose rows are exactly the projections
    (accession, length, description) of the records [r] with
    [lo <= length(r) <= hi], both bounds included, in the relative order
    the records have in the input. *)
Theorem save_to_csv_filters_in_order (records : list SeqRecord) (filename : string)
    (lo hi : Z) (s : State) :
  exists table : DataFrame,
    result_table records filename lo hi s = Some table
    /\ columns table = ["Accession"; "Length"; "Description"]
    /\ rows table = map row_of (List.filter (in_range lo hi) records)
    /\ rows table `sublist_of` map row_of records
    /\ (forall row : Row,
          In row (rows table)
          <-> exists rec, In rec records /\ lo <= seq_len rec <= hi /\ row = row_of rec).
Proof.
  eexists. split; [apply result_table_eq|]. simpl.
  rewrite collect_spec.
  repeat split; try done.
  - apply spec_sublist.
  - unfold filter_and_tabulate_spec. rewrite in_map_iff.
    intros (rec & <- & Hin). apply filter_In in Hin as [Hin Hr].
    exists rec. by rewrite <- in_range_bounds.
  - intros (rec & Hin & Hr & ->). unfold filter_and_tabulate_spec.
    apply in_map, filter_In. by rewrite in_range_bounds.
Qed.

(** C2 (as amended).  [save_to_csv] computes its table from the records
    and the bounds alone and sends nothing to the remote service, but it is
    not free of effects: it writes the table as the CSV file [filename],
    creating or overwriting exactly that file.  Every other file, the
    tables already in the store, the retriever's attributes, the console
    and the open figures are left as they were. *)
Theorem save_to_csv_effects (records : list SeqRecord) (filename : string)
    (lo hi : Z) (s : State) :
  let s' := snd (save_to_csv records filename lo hi s) in
  let table := mkDataFrame result_columns (filter_and_tabulate_spec records lo hi) in
  fst (save_to_csv records filename lo hi s) = Ret (length (frames s))
  /\ requests s' = requests s
  /\ files s' = <[filename := CsvFile (columns table) (rows table)]> (files s)
  /\ (forall other : string, other <> filename -> files s' !! other = files s !! other)
  /\ frames s' = frames s ++ [table]
  /\ self s' = self s
  /\ stdout s' = stdout s
  /\ figures s' = figures s
  /\ entrez_config s' = entrez_config s.
Proof.
  rewrite save_to_csv_run, collect_spec. simpl.
  repeat split; try done.
  intros other Hne. by rewrite lookup_insert_ne.
Qed.

(** C2 as stated fails: on the empty record list [save_to_csv] creates
    the file it is given, so the state it leaves is not the one it
    started in. *)
Lemma save_to_csv_writes_file :
  files initial_state !! "out.csv" = None
  /\ files (snd (save_to_csv [] "out.csv" 0 0 initial_state)) !! "out.csv"
     = Some (CsvFile ["Accession"; "Length"; "Description"] [])
  /\ snd (save_to_csv [] "out.csv" 0 0 initial_state) <> initial_state.
Proof.
  split; [reflexivity|]. split; [reflexivity|].
  intros H. apply (f_equal (fun st => files st !! "out.csv")) in H.
  vm_compute in H. discriminate H.
Qed.

(** C6.  Filtering is idempotent.  Take the table [save_to_csv] returns
    and feed it back: whatever records stand behind its rows (any record
    list whose projections are exactly the table's rows, in order),
    [save_to_csv] with the same bounds returns the same table again, same
    rows in the same order.  Such records exist for every table returned,
    and the length filter read off the Length column keeps every row of
    the table in place. *)
Theorem filtering_idempotent (records : list SeqRecord) (filename : string)
    (lo hi : Z) (s : State) :
  exists table : DataFrame,
    result_table records filename lo hi s = Some table
    /\ (exists records' : list SeqRecord, map row_of records' = rows table)
    /\ (forall (records' : list SeqRecord) (filename' : string) (s' : State),
          map row_of records' = rows table ->
          result_table records' filename' lo hi s' = Some table)
    /\ length_filter lo hi (rows table) = rows table.
Proof.
  eexists. split; [apply result_table_eq|]. simpl. rewrite collect_spec.
  split; [by exists (List.filter (in_range lo hi) records)|]. split.
  - intros records' filename' s' Hrows.
    rewrite result_table_eq, collect_spec. do 2 f_equal.
    rewrite <- Hrows. unfold filter_and_tabulate_spec. f_equal.
    apply filter_all, Forall_forall. intros rec Hin.
    pose proof (spec_rows_in_range lo hi records) as Hrange.
    rewrite <- Hrows, Forall_forall in Hrange.
    apply in_range_bounds.
    apply (Hrange (row_of rec)), list_elem_of_In, in_map, list_elem_of_In, Hin.
  - apply length_filter_keeps, spec_rows_in_range.
Qed.

Lemma filtering_idempotent_witness :
  map row_of [sample_r1; sample_r3] = rows sample_table
  /\ result_table [sample_r1; sample_r3] "again.csv" 100 1000 sample_table_state
     = result_table [sample_r1; sample_r2; sample_r3] "out.csv" 100 1000 initial_state.
Proof.
  split; [reflexivity|].
  destruct (filtering_idempotent [sample_r1; sample_r2; sample_r3] "out.csv" 100 1000
              initial_state) as (table & Htable & _ & Hagain & _).
  rewrite Htable. apply Hagain.
  rewrite result_table_eq in Htable. injection Htable as <-. reflexivity.
Defined.

(** C10.  When no record of the input lies within the bounds (in
    particular when the input is empty), [save_to_csv] still returns a
    table with the columns Accession, Length, Description and no rows, and
    writes the CSV file, which then holds the header row only. *)
Theorem save_to_csv_nothing_kept (records : list SeqRecord) (filename : string)
    (lo hi : Z) (s : State) :
  Forall (fun rec => ~ (lo <= seq_len rec <= hi)) records ->
  (exists df : nat, fst (save_to_csv records filename lo hi s) = Ret df)
  /\ result_table records filename lo hi s
     = Some (mkDataFrame ["Accession"; "Length"; "Description"] [])
  /\ written_csv records filename lo hi s
     = Some (CsvFile ["Accession"; "Length"; "Description"] [])
  /\ (written_csv records filename lo hi s ≫= csv_row_count) = Some 1%nat.
Proof.
  intros Hout.
  assert (collect records lo hi = []) as Hnil.
  { rewrite collect_spec. unfold filter_and_tabulate_spec.
    rewrite filter_none; [done|].
    eapply Forall_impl; [exact Hout|]. intros rec Hrec. simpl in Hrec.
    destruct (in_range lo hi rec) eqn:E; [|done].
    by apply in_range_bounds in E. }
  rewrite result_table_eq, written_csv_eq, save_to_csv_run, Hnil. simpl.
  repeat split; try done. by eexists.
Qed.

Lemma save_to_csv_nothing_kept_witness :
  Forall (fun rec => ~ (100 <= seq_len rec <= 1000)) [sample_r2]
  /\ written_csv [sample_r2] "out.csv" 100 1000 initial_state
     = Some (CsvFile ["Accession"; "Length"; "Description"] []).
Proof.
  assert (Forall (fun rec => ~ (100 <= seq_len rec <= 1000)) [sample_r2]) as Hout.
  { repeat constructor. change (seq_len sample_r2) with 1500. lia. }
  split; [exact Hout|].
  destruct (save_to_csv_nothing_kept [sample_r2] "out.csv" 100 1000 initial_state Hout)
    as (_ & _ & H & _).
  exact H.
Defined.

(* ===================================================================== *)
(** ** Search and fetch *)
(* ===================================================================== *)

Ltac run_py :=
  cbv [bind try_except lift print send modify ret get subscript first entry getattr];
  cbn [fst snd self files frames requests stdout figures entrez_config
       set_self set_files set_frames set_requests set_stdout set_figures
       set_entrez set_webenv set_query_key set_count
       self_webenv self_query_key self_count Count WebEnv QueryKey].

Ltac sent_so_far :=
  eexists; split; [rewrite <- ?app_assoc; reflexivity | repeat constructor].

(** Everything [search_taxid] can do, in one statement: it never raises,
    touches neither files, tables nor figures, sends at most the taxonomy
    lookup and the search, and returns a count only after the three
    attributes are stored. *)
Lemma search_taxid_outcome (srv : Remote) (taxid : string) (s : State) :
  let r := search_taxid srv taxid s in
  files (snd r) = files s
  /\ frames (snd r) = frames s
  /\ figures (snd r) = figures s
  /\ entrez_config (snd r) = entrez_config s
  /\ (exists new, requests (snd r) = requests s ++ new /\ no_fetch new)
  /\ match fst r with
     | Raise _ => False
     | Ret None => True
     | Ret (Some c) =>
         c <> 0
         /\ exists sr w k,
              esearch_read srv (search_term taxid) "y" = Ret sr
              /\ Count sr = Ret c /\ WebEnv sr = Some w /\ QueryKey sr = Some k
              /\ self (snd r) = mkRetriever (Some w) (Some k) (Some c)
     end.
Proof.
  unfold search_taxid, no_fetch. run_py.
  destruct (taxonomy_read srv taxid) as [[|record0 rest]|e]; run_py;
    [repeat split; try done; sent_so_far | | repeat split; try done; sent_so_far].
  destruct (record0 !! "ScientificName") as [name|]; run_py;
    [|repeat split; try done; sent_so_far].
  destruct (esearch_read srv (search_term taxid) "y") as [sr|e] eqn:Hsr; run_py;
    [|repeat split; try done; sent_so_far].
  destruct (Count sr) as [c|e] eqn:Hc; run_py;
    [|repeat split; try done; sent_so_far].
  destruct (c =? 0) eqn:Hz; run_py;
    [repeat split; try done; sent_so_far|].
  apply Z.eqb_neq in Hz.
  destruct (WebEnv sr) as [w|] eqn:Hw; run_py;
    [|repeat split; try done; sent_so_far].
  destruct (QueryKey sr) as [k|] eqn:Hk; run_py;
    [|repeat split; try done; sent_so_far].
  repeat split; try done; [sent_so_far|].
  by exists sr, w, k.
Qed.

(** The search reported no match: [None], and the attributes are as
    before. *)
Lemma search_taxid_zero (srv : Remote) (taxid : string) (s : State) (sr : SearchResults) :
  esearch_read srv (search_term taxid) "y" = Ret sr ->
  Count sr = Ret 0 ->
  fst (search_taxid srv taxid s) = Ret None
  /\ self (snd (search_taxid srv taxid s)) = self s.
Proof.
  intros Hsr Hc. unfold search_taxid. run_py.
  destruct (taxonomy_read srv taxid) as [[|record0 rest]|e]; run_py; try done.
  destruct (record0 !! "ScientificName") as [name|]; run_py; try done.
  rewrite Hsr. run_py. rewrite Hc. run_py. done.
Qed.

(** The search succeeded: the count comes back and the session is stored. *)
Lemma search_taxid_found (srv : Remote) (taxid : string) (s : State)
    (record0 : gmap string string) (rest : list (gmap string string))
    (name : string) (c : Z) (w k : string) :
  taxonomy_read srv taxid = Ret (record0 :: rest) ->
  record0 !! "ScientificName" = Some name ->
  esearch_read srv (search_term taxid) "y" = Ret (mkSearchResults (Ret c) (Some w) (Some k)) ->
  c <> 0 ->
  fst (search_taxid srv taxid s) = Ret (Some c)
  /\ self (snd (search_taxid srv taxid s)) = mkRetriever (Some w) (Some k) (Some c).
Proof.
  intros Ht Hn Hsr Hc. unfold search_taxid. run_py.
  rewrite Ht. run_py. rewrite Hn. run_py. rewrite Hsr. run_py.
  apply Z.eqb_neq in Hc. rewrite Hc. run_py. done.
Qed.

(** What [fetch_records] does when a session is stored: one request,
    with the batch size [min(max_records, 500)], and nothing else. *)
Lemma fetch_records_session (srv : Remote) (start max_records : Z) (s : State)
    (w k : string) :
  self_webenv (self s) = Some w ->
  self_query_key (self s) = Some k ->
  let r := fetch_records srv start max_records s in
  fst r = Ret (match efetch_parse srv start (Z.min max_records 500) w k with
               | Ret records => records
               | Raise _ => []
               end)
  /\ requests (snd r)
     = requests s ++ [EfetchNucleotide "gb" "text" start (Z.min max_records 500) w k]
  /\ files (snd r) = files s
  /\ frames (snd r) = frames s
  /\ figures (snd r) = figures s
  /\ self (snd r) = self s.
Proof.
  intros Hw Hk. unfold fetch_records. run_py. rewrite Hw, Hk. simpl. run_py.
  destruct (efetch_parse srv start (Z.min max_records 500) w k); run_py; done.
Qed.

(** C4.  In every retriever state without a stored session (the session
    token or the query key is not set), [fetch_records] with any start
    offset and any requested maximum returns the empty list; it raises
    nothing, sends nothing, and only prints its warning. *)
Theorem fetch_without_session (srv : Remote) (start max_records : Z) (s : State) :
  has_session (self s) = false ->
  fetch_records srv start max_records s
  = (Ret [],
     set_stdout (stdout s ++ ["No search results to fetch. Run search_taxid() first."]) s)
  /\ requests (snd (fetch_records srv start max_records s)) = requests s.
Proof.
  unfold has_session, fetch_records. run_py.
  destruct (self_webenv (self s)), (self_query_key (self s)); simpl; by try discriminate.
Qed.

Lemma fetch_without_session_witness :
  has_session (self initial_state) = false
  /\ fst (fetch_records (sample_service 3) 0 10 initial_state) = Ret [].
Proof.
  split; [reflexivity|].
  destruct (fetch_without_session (sample_service 3) 0 10 initial_state eq_refl) as [H _].
  rewrite H. reflexivity.
Defined.

(** C5.  With a session stored, [fetch_records] sends exactly one fetch
    request, and its batch size is [min(max_records, 500)]: never above
    500, the requested value itself when that is at most 500, and exactly
    500 when more is requested. *)
Theorem fetch_batch_clamped (srv : Remote) (start max_records : Z) (s : State)
    (w k : string) :
  self_webenv (self s) = Some w ->
  self_query_key (self s) = Some k ->
  exists batch_size : Z,
    requests (snd (fetch_records srv start max_records s))
    = requests s ++ [EfetchNucleotide "gb" "text" start batch_size w k]
    /\ batch_size <= 500
    /\ (max_records <= 500 -> batch_size = max_records)
    /\ (500 < max_records -> batch_size = 500).
Proof.
  intros Hw Hk.
  destruct (fetch_records_session srv start max_records s w k Hw Hk) as (_ & Hreq & _).
  exists (Z.min max_records 500). split; [exact Hreq|]. lia.
Qed.

Lemma fetch_batch_clamped_witness :
  self_webenv (self sample_session_state) = Some "WE"
  /\ self_query_key (self sample_session_state) = Some "1"
  /\ exists batch_size : Z,
       requests (snd (fetch_records (sample_service 3) 0 750 sample_session_state))
       = requests sample_session_state
         ++ [EfetchNucleotide "gb" "text" 0 batch_size "WE" "1"]
       /\ batch_size <= 500
       /\ (750 <= 500 -> batch_size = 750)
       /\ (500 < 750 -> batch_size = 500).
Proof.
  split; [reflexivity|]. split; [reflexivity|].
  apply (fetch_batch_clamped (sample_service 3) 0 750 sample_session_state "WE" "1");
    reflexivity.
Defined.

(** C9 (as amended).  [search_taxid] never raises.  It returns either
    [None] or the count the service reported, and that count is never zero
    (so it is strictly positive whenever the reported count is not
    negative).  Whenever it returns a count, the session token, the query
    key and the count have been stored on the retriever, so the fetch
    precondition holds in the state it leaves. *)
Theorem search_taxid_result (srv : Remote) (taxid : string) (s : State) :
  match fst (search_taxid srv taxid s) with
  | Raise _ => False
  | Ret None => True
  | Ret (Some c) =>
      c <> 0
      /\ (0 <= c -> 0 < c)
      /\ (exists sr, esearch_read srv (search_term taxid) "y" = Ret sr /\ Count sr = Ret c)
      /\ (exists w k,
            self (snd (search_taxid srv taxid s)) = mkRetriever (Some w) (Some k) (Some c))
      /\ has_session (self (snd (search_taxid srv taxid s))) = true
  end.
Proof.
  destruct (search_taxid_outcome srv taxid s) as (_ & _ & _ & _ & _ & H).
  destruct (fst (search_taxid srv taxid s)) as [[c|]|e]; try done.
  destruct H as (Hc & sr & w & k & Hsr & Hcount & _ & _ & Hself).
  repeat split; try done; try lia.
  - by exists sr.
  - by exists w, k.
  - by rewrite Hself.
Qed.

(** C9 as stated fails: a service answering with the count -3 makes
    [search_taxid] return -3, which is not strictly positive. *)
Lemma search_taxid_negative_count :
  fst (search_taxid (sample_service (-3)) "9606" initial_state) = Ret (Some (-3))
  /\ ~ (0 < -3).
Proof. split; [reflexivity | lia]. Qed.

(* ===================================================================== *)
(** ** The chart *)
(* ===================================================================== *)

Lemma insert_row_permutation (row : Row) (sorted : list Row) :
  insert_row row sorted ≡ₚ row :: sorted.
Proof.
  induction sorted as [|next rest IH]; simpl; [done|].
  destruct (Length next <=? Length row); [done|].
  rewrite IH. apply perm_swap.
Qed.

Lemma sort_rows_permutation (table : list Row) : sort_rows_desc table ≡ₚ table.
Proof.
  induction table as [|row rest IH]; simpl; [done|].
  by rewrite insert_row_permutation, IH.
Qed.

Lemma insert_row_sorted (row : Row) (sorted : list Row) :
  StronglySorted longer_first sorted ->
  StronglySorted longer_first (insert_row row sorted).
Proof.
  induction 1 as [|next rest Hrest IH Hnext]; simpl.
  - repeat constructor.
  - destruct (Length next <=? Length row) eqn:E.
    + apply Z.leb_le in E. constructor; [by constructor|].
      constructor; [exact E|].
      eapply Forall_impl; [exact Hnext|].
      intros other Hother. unfold longer_first in *. simpl in *. lia.
    + apply Z.leb_gt in E. constructor; [exact IH|].
      rewrite insert_row_permutation. constructor; [|exact Hnext].
      unfold longer_first. lia.
Qed.

Lemma sort_rows_sorted (table : list Row) :
  StronglySorted longer_first (sort_rows_desc table).
Proof.
  induction table as [|row rest IH]; simpl; [constructor|].
  by apply insert_row_sorted.
Qed.

(** What one call of [plot_lengths] does to the state. *)
Lemma plot_lengths_run (df : nat) (output_file : string) (s : State) (given : DataFrame) :
  frames s !! df = Some given ->
  plot_lengths df output_file s
  = (Ret tt,
     set_files (<[output_file := ImageFile (lengths_figure (sort_values_length_desc given))]>
                  (files s))
       (set_frames (frames s ++ [sort_values_length_desc given]) s)).
Proof.
  intros Hdf.
  unfold plot_lengths, frame_at, new_frame, plt_figure, plt_plot, plt_xticks, plt_xlabel,
    plt_ylabel, plt_title, plt_tight_layout, plt_savefig, plt_close, on_current_figure.
  run_py. rewrite Hdf. run_py. rewrite list_lookup_middle by done. run_py.
  reflexivity.
Qed.

(** C8.  [plot_lengths] sorts a copy of the table it is given, by length
    in descending order, and plots the copy.  The table it was given, and
    every other table in the store, is afterwards what it was before: same
    rows, same values, same order. *)
Theorem plot_lengths_keeps_table (df : nat) (output_file : string) (s : State)
    (given : DataFrame) :
  frames s !! df = Some given ->
  let s' := snd (plot_lengths df output_file s) in
  fst (plot_lengths df output_file s) = Ret tt
  /\ frames s' !! df = Some given
  /\ (forall (ref : nat) (table : DataFrame),
        frames s !! ref = Some table -> frames s' !! ref = Some table)
  /\ exists sorted : DataFrame,
       frames s' = frames s ++ [sorted]
       /\ columns sorted = columns given
       /\ rows sorted ≡ₚ rows given
       /\ StronglySorted (fun a b : Row => Length b <= Length a) (rows sorted)
       /\ files s' !! output_file = Some (ImageFile (lengths_figure sorted))
       /\ lines (lengths_figure sorted)
          = [(map Accession (rows sorted), map Length (rows sorted), "o")].
Proof.
  intros Hdf. rewrite (plot_lengths_run _ _ _ _ Hdf). simpl.
  split; [done|]. split; [by apply lookup_app_l_Some|].
  split; [intros ref table Href; by apply lookup_app_l_Some|].
  exists (sort_values_length_desc given). simpl. repeat split.
  - apply sort_rows_permutation.
  - apply sort_rows_sorted.
  - by rewrite lookup_insert_eq.
Qed.

Lemma plot_lengths_keeps_table_witness :
  frames sample_table_state !! 0%nat = Some sample_table
  /\ frames (snd (plot_lengths 0 "plot.png" sample_table_state)) !! 0%nat
     = Some sample_table.
Proof.
  split; [reflexivity|].
  destruct (plot_lengths_keeps_table 0 "plot.png" sample_table_state sample_table eq_refl)
    as (_ & H & _).
  exact H.
Defined.

(* ===================================================================== *)
(** ** The pipeline *)
(* ===================================================================== *)

Lemma main_eq (srv : Remote) (inp : Inputs) (s : State) :
  main srv inp s
  = match search_taxid srv (taxid inp) (started inp s) with
    | (Ret count, s1) =>
        (if falsy count then print "No records found. Exiting."
         else
           print (newline +:+ "Fetching records...") >>
           let* records := fetch_records srv 0 50 in
           let* df := save_to_csv records (csv_name (taxid inp)) (min_len inp) (max_len inp) in
           print ("Saved filtered records to " +:+ csv_name (taxid inp)) >>
           plot_lengths df (plot_name (taxid inp)) >>
           print ("Saved plot to " +:+ plot_name (taxid inp))) s1
    | (Raise e, s1) => (Raise e, s1)
    end.
Proof. reflexivity. Qed.

Lemma bind_print {B} (line : string) (k : unit -> M B) (s : State) :
  bind (print line) k s = k tt (set_stdout (stdout s ++ [line]) s).
Proof. reflexivity. Qed.

Lemma bind_run {A B} (m : M A) (k : A -> M B) (s s' : State) (a : A) :
  m s = (Ret a, s') -> bind m k s = k a s'.
Proof. intros H. unfold bind. by rewrite H. Qed.

Lemma append_cancel (p a b : string) : p +:+ a = p +:+ b -> a = b.
Proof.
  induction p as [|ch p IH]; simpl; [done|].
  intros H. injection H as H. auto.
Qed.

Lemma csv_name_not_plot_name (t : string) : csv_name t <> plot_name t.
Proof.
  unfold csv_name, plot_name. intros H.
  apply append_cancel, append_cancel in H. discriminate H.
Qed.

Lemma collect_example (r1 r2 r3 : SeqRecord) :
  seq_len r1 = 200 -> seq_len r2 = 1500 -> seq_len r3 = 800 ->
  collect [r1; r2; r3] 100 1000 = [row_of r1; row_of r3].
Proof.
  intros H1 H2 H3. unfold collect, append_if_in_range, row_of. simpl.
  by rewrite H1, H2, H3.
Qed.

(** C3.  When the remote search reports a total count of 0,
    [search_taxid] returns [None] and stores no session, and [main] ends
    normally without sending a fetch request and without writing any file:
    neither the CSV nor the plot is created. *)
Theorem no_matches_no_output (srv : Remote) (inp : Inputs) (s : State) (sr : SearchResults) :
  esearch_read srv (search_term (taxid inp)) "y" = Ret sr ->
  Count sr = Ret 0 ->
  let s' := snd (main srv inp s) in
  (forall s0 : State,
     fst (search_taxid srv (taxid inp) s0) = Ret None
     /\ self (snd (search_taxid srv (taxid inp) s0)) = self s0)
  /\ fst (main srv inp s) = Ret tt
  /\ has_session (self s') = false
  /\ (exists new, requests s' = requests s ++ new /\ no_fetch new)
  /\ files s' = files s
  /\ frames s' = frames s.
Proof.
  intros Hsr Hc. split; [intros s0; by eapply search_taxid_zero|].
  pose proof (search_taxid_zero srv (taxid inp) (started inp s) sr Hsr Hc) as [Hr Hself].
  pose proof (search_taxid_outcome srv (taxid inp) (started inp s))
    as (Hf & Hfr & _ & _ & Hreq & _).
  simpl. rewrite main_eq.
  destruct (search_taxid srv (taxid inp) (started inp s)) as [r s1].
  simpl in Hr, Hself, Hf, Hfr, Hreq. subst r. simpl.
  by rewrite Hself.
Qed.

Lemma no_matches_no_output_witness :
  esearch_read (sample_service 0) (search_term (taxid sample_inputs)) "y"
    = Ret (mkSearchResults (Ret 0) (Some "WE") (Some "1"))
  /\ fst (main (sample_service 0) sample_inputs initial_state) = Ret tt
  /\ files (snd (main (sample_service 0) sample_inputs initial_state)) = files initial_state.
Proof.
  split; [reflexivity|].
  destruct (no_matches_no_output (sample_service 0) sample_inputs initial_state
              (mkSearchResults (Ret 0) (Some "WE") (Some "1")) eq_refl eq_refl)
    as (_ & Hret & _ & _ & Hfiles & _).
  split; [exact Hret | exact Hfiles].
Defined.

(** C7.  For three fetched records of lengths 200, 1500 and 800, in that
    order, and the bounds [100, 1000], the table holds exactly the
    200-length record followed by the 800-length record, the 1500-length
    record is left out, and the CSV file written consists of the header
    row and exactly two data rows.  This holds for [save_to_csv] on its
    own and for the whole run of [main]. *)
Theorem example_three_records (srv : Remote) (inp : Inputs) (s : State)
    (record0 : gmap string string) (rest : list (gmap string string))
    (name : string) (c : Z) (w k : string) (r1 r2 r3 : SeqRecord) :
  taxonomy_read srv (taxid inp) = Ret (record0 :: rest) ->
  record0 !! "ScientificName" = Some name ->
  esearch_read srv (search_term (taxid inp)) "y"
    = Ret (mkSearchResults (Ret c) (Some w) (Some k)) ->
  c <> 0 ->
  efetch_parse srv 0 50 w k = Ret [r1; r2; r3] ->
  seq_len r1 = 200 -> seq_len r2 = 1500 -> seq_len r3 = 800 ->
  min_len inp = 100 -> max_len inp = 1000 ->
  let table := mkDataFrame ["Accession"; "Length"; "Description"] [row_of r1; row_of r3] in
  let s' := snd (main srv inp s) in
  (forall (filename : string) (s0 : State),
     result_table [r1; r2; r3] filename 100 1000 s0 = Some table
     /\ written_csv [r1; r2; r3] filename 100 1000 s0
        = Some (CsvFile (columns table) (rows table)))
  /\ ~ In (row_of r2) (rows table)
  /\ fst (main srv inp s) = Ret tt
  /\ frames s' !! length (frames s) = Some table
  /\ files s' !! csv_name (taxid inp) = Some (CsvFile (columns table) (rows table))
  /\ (files s' !! csv_name (taxid inp) ≫= csv_row_count) = Some 3%nat
  /\ (files s' !! csv_name (taxid inp) ≫= csv_data_rows) = Some [row_of r1; row_of r3]
  /\ is_Some (files s' !! plot_name (taxid inp)).
Proof.
  intros Ht Hn Hsr Hc Hfetch H1 H2 H3 Hlo Hhi table s'.
  pose proof (collect_example r1 r2 r3 H1 H2 H3) as Hdata.
  split; [|split].
  { intros filename s0. by rewrite result_table_eq, written_csv_eq, Hdata. }
  { unfold table, row_of. simpl. rewrite H1, H2, H3.
    intros [H|[H|[]]]; injection H; lia. }
  pose proof (search_taxid_found srv (taxid inp) (started inp s) _ _ _ _ _ _ Ht Hn Hsr Hc)
    as [Hr Hself].
  pose proof (search_taxid_outcome srv (taxid inp) (started inp s))
    as (Hf & Hfr & _ & _ & _ & _).
  subst s'. rewrite main_eq.
  destruct (search_taxid srv (taxid inp) (started inp s)) as [r s1].
  simpl in Hr, Hself, Hf, Hfr. subst r.
  cbn [falsy]. apply Z.eqb_neq in Hc. rewrite Hc.
  rewrite bind_print.
  set (s2 := set_stdout _ s1).
  assert (self_webenv (self s2) = Some w) as Hw by (simpl; by rewrite Hself).
  assert (self_query_key (self s2) = Some k) as Hk by (simpl; by rewrite Hself).
  pose proof (fetch_records_session srv 0 50 s2 w k Hw Hk) as (Hrec & _ & Hf3 & Hfr3 & _).
  change (Z.min 50 500) with 50 in Hrec. rewrite Hfetch in Hrec.
  destruct (fetch_records srv 0 50 s2) as [rr s3] eqn:E3.
  simpl in Hrec, Hf3, Hfr3. subst rr.
  rewrite (bind_run _ _ _ _ _ E3).
  rewrite (bind_run _ _ _ _ _ (save_to_csv_run _ _ _ _ _)).
  rewrite Hlo, Hhi, Hdata. rewrite bind_print.
  erewrite bind_run; [|apply plot_lengths_run; simpl; by apply list_lookup_middle].
  unfold print, modify. simpl.
  rewrite Hfr3, Hfr.
  rewrite <- app_assoc. simpl. rewrite list_lookup_middle by done.
  rewrite lookup_insert_ne by (apply not_eq_sym, csv_name_not_plot_name).
  rewrite !lookup_insert_eq. simpl. eauto 10.
Qed.

Lemma example_three_records_witness :
  (seq_len sample_r1 = 200 /\ seq_len sample_r2 = 1500 /\ seq_len sample_r3 = 800)
  /\ efetch_parse (sample_service 3) 0 50 "WE" "1" = Ret [sample_r1; sample_r2; sample_r3]
  /\ files (snd (main (sample_service 3) sample_inputs initial_state))
       !! csv_name (taxid sample_inputs)
     = Some (CsvFile ["Accession"; "Length"; "Description"]
                     [row_of sample_r1; row_of sample_r3]).
Proof.
  split; [repeat split; reflexivity|]. split; [reflexivity|].
  assert (3 <> 0) as Hc by lia.
  destruct (example_three_records (sample_service 3) sample_inputs initial_state
              sample_taxon [] "Homo sapiens" 3 "WE" "1" sample_r1 sample_r2 sample_r3
              eq_refl eq_refl eq_refl Hc eq_refl eq_refl eq_refl eq_refl eq_refl eq_refl)
    as (_ & _ & _ & _ & H & _).
  exact H.
Defined.

(* ===================================================================== *)
(** ** Sample runs *)
(* ===================================================================== *)

Example sample_run_requests :
  requests (snd (main (sample_service 3) sample_inputs initial_state))
  = [EfetchTaxonomy "9606";
     EsearchNucleotide "txid9606[Organism]" "y";
     EfetchNucleotide "gb" "text" 0 50 "WE" "1"].
Proof. vm_compute. reflexivity. Qed.

Example sample_run_stdout :
  stdout (snd (main (sample_service 3) sample_inputs initial_state))
  = ["Searching for records with taxID: 9606";
     "Organism: Homo sapiens (TaxID: 9606)";
     "Found 3 records";
     newline +:+ "Fetching records...";
     "Saved filtered records to taxid_9606_filtered.csv";
     "Saved plot to taxid_9606_plot.png"].
Proof. vm_compute. reflexivity. Qed.

Example sample_run_tables :
  frames (snd (main (sample_service 3) sample_inputs initial_state))
  = [mkDataFrame result_columns [("AB1.1", 200, "first"); ("AB3.1", 800, "third")];
     mkDataFrame result_columns [("AB3.1", 800, "third"); ("AB1.1", 200, "first")]].
Proof. vm_compute. reflexivity. Qed.

Example sample_run_no_match_stdout :
  stdout (snd (main (sample_service 0) sample_inputs initial_state))
  = ["Searching for records with taxID: 9606";
     "Organism: Homo sapiens (TaxID: 9606)";
     "No records found for Homo sapiens";
     "No records found. Exiting."].
Proof. vm_compute. reflexivity. Qed.

Example sample_inclusive_bounds :
  collect [sample_r1; sample_r2; sample_r3] 200 800
  = [("AB1.1", 200, "first"); ("AB3.1", 800, "third")].
Proof. vm_compute. reflexivity. Qed.

Example sample_clamp :
  requests (snd (fetch_records (sample_service 3) 20 750 sample_session_state))
  = [EfetchNucleotide "gb" "text" 20 500 "WE" "1"].
Proof. vm_compute. reflexivity. Qed.

(* ===================================================================== *)
(** ** More on the filter *)
(* ===================================================================== *)

(** X1.  The loop of [save_to_csv] treats its input piecewise: the rows
    collected from two batches of records put one after the other are the
    rows of the first batch followed by the rows of the second. *)
Theorem collect_app (first_batch second_batch : list SeqRecord) (lo hi : Z) :
  collect (first_batch ++ second_batch) lo hi
  = collect first_batch lo hi ++ collect second_batch lo hi.
Proof.
  unfold collect. rewrite fold_left_app, !loop_from. done.
Qed.

(** X2.  Widening the window never loses a row: with a lower minimum and
    a higher maximum, the rows kept before are still kept, in the same
    relative order. *)
Theorem collect_wider_window (records : list SeqRecord) (lo hi lo' hi' : Z) :
  lo' <= lo -> hi <= hi' ->
  collect records lo hi `sublist_of` collect records lo' hi'.
Proof.
  intros Hlo Hhi. rewrite !collect_spec. unfold filter_and_tabulate_spec.
  induction records as [|rec records IH]; simpl; [constructor|].
  destruct (in_range lo hi rec) eqn:E.
  - apply in_range_bounds in E.
    assert (in_range lo' hi' rec = true) as -> by (apply in_range_bounds; lia).
    simpl. by constructor.
  - destruct (in_range lo' hi' rec); simpl; [by constructor | done].
Qed.

Lemma collect_wider_window_witness :
  (100 <= 200 /\ 800 <= 1000)
  /\ collect [sample_r1; sample_r2; sample_r3] 200 800
     `sublist_of` collect [sample_r1; sample_r2; sample_r3] 100 1000.
Proof.
  split; [lia|].
  apply (collect_wider_window [sample_r1; sample_r2; sample_r3] 200 800 100 1000); lia.
Defined.

(** X3.  The bounds are not checked against each other or against zero:
    with a maximum below the minimum, or a negative maximum, no record can
    qualify, and [save_to_csv] returns an empty table and writes a CSV file
    with the header row only, whatever the records are. *)
Theorem save_to_csv_empty_window (records : list SeqRecord) (filename : string)
    (lo hi : Z) (s : State) :
  hi < lo \/ hi < 0 ->
  result_table records filename lo hi s = Some (mkDataFrame result_columns [])
  /\ written_csv records filename lo hi s = Some (CsvFile result_columns []).
Proof.
  intros Hwin.
  assert (collect records lo hi = []) as Hnil.
  { rewrite collect_spec. unfold filter_and_tabulate_spec.
    rewrite filter_none; [done|].
    apply Forall_forall. intros rec _.
    destruct (in_range lo hi rec) eqn:E; [|done].
    apply in_range_bounds in E. unfold seq_len in E. lia. }
  by rewrite result_table_eq, written_csv_eq, Hnil.
Qed.

Lemma save_to_csv_empty_window_witness :
  (100 < 1000 \/ 100 < 0)
  /\ written_csv [sample_r1; sample_r2; sample_r3] "out.csv" 1000 100 initial_state
     = Some (CsvFile result_columns []).
Proof.
  assert (100 < 1000 \/ 100 < 0) as Hwin by (left; lia).
  split; [exact Hwin|].
  destruct (save_to_csv_empty_window [sample_r1; sample_r2; sample_r3] "out.csv"
              1000 100 initial_state Hwin) as [_ H].
  exact H.
Defined.

(** X4.  When every record lies within the bounds, nothing is dropped:
    the table has one row per record, in input order, and so has the CSV
    file. *)
Theorem save_to_csv_keeps_all (records : list SeqRecord) (filename : string)
    (lo hi : Z) (s : State) :
  Forall (fun rec => lo <= seq_len rec <= hi) records ->
  result_table records filename lo hi s
  = Some (mkDataFrame result_columns (map row_of records))
  /\ written_csv records filename lo hi s
     = Some (CsvFile result_columns (map row_of records)).
Proof.
  intros Hall.
  assert (collect records lo hi = map row_of records) as Hdata.
  { rewrite collect_spec. unfold filter_and_tabulate_spec.
    rewrite filter_all; [done|].
    eapply Forall_impl; [exact Hall|]. intros rec Hrec. by apply in_range_bounds. }
  by rewrite result_table_eq, written_csv_eq, Hdata.
Qed.

Lemma save_to_csv_keeps_all_witness :
  Forall (fun rec => 0 <= seq_len rec <= 2000) [sample_r1; sample_r2; sample_r3]
  /\ written_csv [sample_r1; sample_r2; sample_r3] "out.csv" 0 2000 initial_state
     = Some (CsvFile result_columns (map row_of [sample_r1; sample_r2; sample_r3])).
Proof.
  assert (Forall (fun rec => 0 <= seq_len rec <= 2000) [sample_r1; sample_r2; sample_r3])
    as Hall.
  { repeat constructor.
    - change (seq_len sample_r1) with 200. lia.
    - change (seq_len sample_r1) with 200. lia.
    - change (seq_len sample_r2) with 1500. lia.
    - change (seq_len sample_r2) with 1500. lia.
    - change (seq_len sample_r3) with 800. lia.
    - change (seq_len sample_r3) with 800. lia. }
  split; [exact Hall|].
  destruct (save_to_csv_keeps_all [sample_r1; sample_r2; sample_r3] "out.csv"
              0 2000 initial_state Hall) as [_ H].
  exact H.
Defined.

(** X5.  [save_to_csv] overwrites: after two calls on the same file name
    the file system is the one the second call alone would have left, with
    nothing of the first call's rows in it. *)
Theorem save_to_csv_overwrites (records1 records2 : list SeqRecord) (filename : string)
    (lo1 hi1 lo2 hi2 : Z) (s : State) :
  files (snd (save_to_csv records2 filename lo2 hi2
                (snd (save_to_csv records1 filename lo1 hi1 s))))
  = files (snd (save_to_csv records2 filename lo2 hi2 s)).
Proof.
  rewrite !save_to_csv_run. simpl. by rewrite insert_insert_eq.
Qed.

(* ===================================================================== *)
(** ** More on the retriever *)
(* ===================================================================== *)

(** X6.  A retriever that was just constructed has no session, whatever
    was stored before: [fetch_records] called right after [__init__]
    returns the empty list and sends nothing.  The constructor also sets
    the three [Entrez] settings, the tool name being fixed. *)
Theorem fetch_right_after_init (srv : Remote) (email api_key : string)
    (start max_records : Z) (s : State) :
  let s0 := snd (NCBIRetriever_init email api_key s) in
  entrez_config s0 = Some (email, api_key, "BioScriptEx10")
  /\ self s0 = fresh_retriever
  /\ fst (fetch_records srv start max_records s0) = Ret []
  /\ requests (snd (fetch_records srv start max_records s0)) = requests s.
Proof. done. Qed.

(** A failed taxonomy lookup ends the search after its one request. *)
Lemma search_taxid_lookup_none (srv : Remote) (taxid : string) (s : State) (e : exn) :
  organism_name_of srv taxid = Raise e ->
  fst (search_taxid srv taxid s) = Ret None
  /\ requests (snd (search_taxid srv taxid s)) = requests s ++ [EfetchTaxonomy taxid].
Proof.
  unfold organism_name_of, search_taxid. run_py.
  destruct (taxonomy_read srv taxid) as [[|record0 rest]|e0]; run_py; try done.
  destruct (record0 !! "ScientificName"); done.
Qed.

(** X7.  When the taxonomy lookup fails (the call raises, the answer is
    empty, or its first entry has no scientific name), [search_taxid]
    returns [None] after that one request: the nucleotide search is never
    sent, the retriever's attributes stay as they were, and the error text
    is printed. *)
Theorem search_taxid_lookup_failure (srv : Remote) (taxid : string) (s : State) (e : exn) :
  organism_name_of srv taxid = Raise e ->
  let s' := snd (search_taxid srv taxid s) in
  fst (search_taxid srv taxid s) = Ret None
  /\ requests s' = requests s ++ [EfetchTaxonomy taxid]
  /\ self s' = self s
  /\ stdout s' = stdout s ++ ["Searching for records with taxID: " +:+ taxid;
                              "Error searching TaxID " +:+ taxid +:+ ": " +:+ str_exn e].
Proof.
  unfold organism_name_of, search_taxid. run_py.
  destruct (taxonomy_read srv taxid) as [[|record0 rest]|e0]; run_py.
  - intros [= <-]. by rewrite <- !app_assoc.
  - destruct (record0 !! "ScientificName"); [done|].
    intros [= <-]. run_py. by rewrite <- !app_assoc.
  - intros [= <-]. by rewrite <- !app_assoc.
Qed.

Lemma search_taxid_lookup_failure_witness :
  organism_name_of sample_unknown_taxon "0" = Raise (IndexError "list index out of range")
  /\ requests (snd (search_taxid sample_unknown_taxon "0" initial_state))
     = requests initial_state ++ [EfetchTaxonomy "0"].
Proof.
  split; [reflexivity|].
  destruct (search_taxid_lookup_failure sample_unknown_taxon "0" initial_state
              (IndexError "list index out of range") eq_refl) as (_ & H & _).
  exact H.
Defined.

(** Everything [search_taxid] can do to the retriever when it returns
    [None]. *)
Lemma search_taxid_none_self (srv : Remote) (taxid : string) (s : State) :
  fst (search_taxid srv taxid s) = Ret None ->
  self (snd (search_taxid srv taxid s)) = self s
  \/ exists sr w,
       esearch_read srv (search_term taxid) "y" = Ret sr
       /\ WebEnv sr = Some w /\ QueryKey sr = None
       /\ self (snd (search_taxid srv taxid s))
          = mkRetriever (Some w) (self_query_key (self s)) (self_count (self s)).
Proof.
  unfold search_taxid. run_py.
  destruct (taxonomy_read srv taxid) as [[|record0 rest]|e]; run_py; auto.
  destruct (record0 !! "ScientificName") as [name|]; run_py; auto.
  destruct (esearch_read srv (search_term taxid) "y") as [sr|e] eqn:Hsr; run_py; auto.
  destruct (Count sr) as [c|e] eqn:Hc; run_py; auto.
  destruct (c =? 0) eqn:Hz; run_py; auto.
  destruct (WebEnv sr) as [w|] eqn:Hw; run_py; auto.
  destruct (QueryKey sr) as [k|] eqn:Hk; run_py; [done|].
  intros _. right. by exists sr, w.
Qed.

(** X8.  A search that returns [None] never changes the stored query key
    or the stored count, and it changes the stored session token in one
    case only: the answer had a nonzero count and a token but no query
    key. *)
Theorem search_taxid_none_keeps_key_and_count (srv : Remote) (taxid : string) (s : State) :
  fst (search_taxid srv taxid s) = Ret None ->
  let s' := snd (search_taxid srv taxid s) in
  self_query_key (self s') = self_query_key (self s)
  /\ self_count (self s') = self_count (self s)
  /\ (self_webenv (self s') = self_webenv (self s)
      \/ exists sr w,
           esearch_read srv (search_term taxid) "y" = Ret sr
           /\ WebEnv sr = Some w /\ QueryKey sr = None
           /\ self_webenv (self s') = Some w).
Proof.
  intros Hnone. simpl.
  destruct (search_taxid_none_self srv taxid s Hnone) as [->|(sr & w & Hsr & Hw & Hk & ->)].
  - auto.
  - simpl. repeat split; try done. right. by exists sr, w.
Qed.

Lemma search_taxid_none_keeps_key_and_count_witness :
  fst (search_taxid (sample_service 0) "9606" sample_session_state) = Ret None
  /\ self_query_key (self (snd (search_taxid (sample_service 0) "9606" sample_session_state)))
     = self_query_key (self sample_session_state).
Proof.
  split; [reflexivity|].
  destruct (search_taxid_none_keeps_key_and_count (sample_service 0) "9606"
              sample_session_state eq_refl) as (H & _).
  exact H.
Defined.

(** X9.  A search whose answer carries a token but no query key fails
    halfway: it returns [None], yet the token is already stored.  On a
    retriever that held a session, the old query key stays, and a later
    [fetch_records] is sent with the new token and the old query key. *)
Theorem failed_search_half_updates_session (srv : Remote) (taxid : string) (s : State)
    (name : string) (sr : SearchResults) (c : Z) (w k0 : string) :
  organism_name_of srv taxid = Ret name ->
  esearch_read srv (search_term taxid) "y" = Ret sr ->
  Count sr = Ret c -> c <> 0 ->
  WebEnv sr = Some w -> QueryKey sr = None ->
  self_query_key (self s) = Some k0 ->
  let s1 := snd (search_taxid srv taxid s) in
  fst (search_taxid srv taxid s) = Ret None
  /\ self s1 = mkRetriever (Some w) (Some k0) (self_count (self s))
  /\ forall start max_records : Z,
       requests (snd (fetch_records srv start max_records s1))
       = requests s1 ++ [EfetchNucleotide "gb" "text" start (Z.min max_records 500) w k0].
Proof.
  intros Hname Hsr Hc Hnz Hw Hk Hk0.
  assert (fst (search_taxid srv taxid s) = Ret None
          /\ self (snd (search_taxid srv taxid s))
             = mkRetriever (Some w) (Some k0) (self_count (self s))) as [Hret Hself].
  { revert Hname. unfold organism_name_of, search_taxid. run_py.
    destruct (taxonomy_read srv taxid) as [[|record0 rest]|e]; run_py; try done.
    destruct (record0 !! "ScientificName"); [|done]. intros _. run_py.
    rewrite Hsr. run_py. rewrite Hc. run_py.
    apply Z.eqb_neq in Hnz. rewrite Hnz. run_py. rewrite Hw. run_py.
    rewrite Hk. run_py. by rewrite Hk0. }
  simpl. split; [done|]. split; [done|].
  intros start max_records.
  apply fetch_records_session; by rewrite Hself.
Qed.

Lemma failed_search_half_updates_session_witness :
  organism_name_of sample_no_query_key "9606" = Ret "Homo sapiens"
  /\ self_query_key (self sample_session_state) = Some "1"
  /\ self (snd (search_taxid sample_no_query_key "9606" sample_session_state))
     = mkRetriever (Some "WE2") (Some "1") (Some 3).
Proof.
  split; [vm_compute; reflexivity|]. split; [reflexivity|].
  assert (3 <> 0) as Hnz by lia.
  assert (organism_name_of sample_no_query_key "9606" = Ret "Homo sapiens") as Hname
    by (vm_compute; reflexivity).
  destruct (failed_search_half_updates_session sample_no_query_key "9606"
              sample_session_state "Homo sapiens" (mkSearchResults (Ret 3) (Some "WE2") None)
              3 "WE2" "1" Hname eq_refl eq_refl Hnz eq_refl eq_refl eq_refl)
    as (_ & H & _).
  exact H.
Defined.

(** The state a successful search leaves, field by field. *)
Lemma search_taxid_found_state (srv : Remote) (taxid : string) (s : State)
    (name : string) (sr : SearchResults) (c : Z) (w k : string) :
  organism_name_of srv taxid = Ret name ->
  esearch_read srv (search_term taxid) "y" = Ret sr ->
  Count sr = Ret c -> c <> 0 ->
  WebEnv sr = Some w -> QueryKey sr = Some k ->
  search_taxid srv taxid s
  = (Ret (Some c),
     mkState (entrez_config s) (mkRetriever (Some w) (Some k) (Some c))
       (requests s ++ [EfetchTaxonomy taxid; EsearchNucleotide (search_term taxid) "y"])
       (stdout s ++ ["Searching for records with taxID: " +:+ taxid;
                     "Organism: " +:+ name +:+ " (TaxID: " +:+ taxid +:+ ")";
                     "Found " +:+ pretty c +:+ " records"])
       (frames s) (files s) (figures s)).
Proof.
  intros Hname Hsr Hc Hnz Hw Hk. revert Hname.
  unfold organism_name_of, search_taxid. run_py.
  destruct (taxonomy_read srv taxid) as [[|record0 rest]|e]; run_py; try done.
  destruct (record0 !! "ScientificName"); [|done]. intros [= ->]. run_py.
  rewrite Hsr. run_py. rewrite Hc. run_py.
  apply Z.eqb_neq in Hnz. rewrite Hnz. run_py. rewrite Hw. run_py. rewrite Hk. run_py.
  by rewrite <- !app_assoc.
Qed.

(** X10.  A successful search sends exactly two requests, in this order:
    the taxonomy lookup of the identifier, then the nucleotide search for
    [txid<taxid>[Organism]] with the history kept on the server.  It
    replaces whatever session was stored before by the new one, and leaves
    files, tables and figures alone. *)
Theorem search_taxid_success_trace (srv : Remote) (taxid : string) (s : State)
    (name : string) (sr : SearchResults) (c : Z) (w k : string) :
  organism_name_of srv taxid = Ret name ->
  esearch_read srv (search_term taxid) "y" = Ret sr ->
  Count sr = Ret c -> c <> 0 ->
  WebEnv sr = Some w -> QueryKey sr = Some k ->
  let s' := snd (search_taxid srv taxid s) in
  fst (search_taxid srv taxid s) = Ret (Some c)
  /\ requests s'
     = requests s ++ [EfetchTaxonomy taxid;
                      EsearchNucleotide ("txid" +:+ taxid +:+ "[Organism]") "y"]
  /\ self s' = mkRetriever (Some w) (Some k) (Some c)
  /\ files s' = files s /\ frames s' = frames s /\ figures s' = figures s.
Proof.
  intros Hname Hsr Hc Hnz Hw Hk.
  by rewrite (search_taxid_found_state _ _ _ _ _ _ _ _ Hname Hsr Hc Hnz Hw Hk).
Qed.

Lemma search_taxid_success_trace_witness :
  organism_name_of (sample_service 3) "9606" = Ret "Homo sapiens"
  /\ self (snd (search_taxid (sample_service 3) "9606" sample_session_state))
     = mkRetriever (Some "WE") (Some "1") (Some 3).
Proof.
  assert (organism_name_of (sample_service 3) "9606" = Ret "Homo sapiens") as Hname
    by (vm_compute; reflexivity).
  split; [exact Hname|].
  assert (3 <> 0) as Hnz by lia.
  destruct (search_taxid_success_trace (sample_service 3) "9606" sample_session_state
              "Homo sapiens" (mkSearchResults (Ret 3) (Some "WE") (Some "1")) 3 "WE" "1"
              Hname eq_refl eq_refl Hnz eq_refl eq_refl) as (_ & _ & H & _).
  exact H.
Defined.

(** X11.  [fetch_records] never raises and never does more than ask: in
    every state and for every answer of the service it returns a list,
    sends at most one request, and leaves the retriever's attributes, the
    files, the tables and the figures as they were. *)
Theorem fetch_records_safe (srv : Remote) (start max_records : Z) (s : State) :
  let s' := snd (fetch_records srv start max_records s) in
  (exists records, fst (fetch_records srv start max_records s) = Ret records)
  /\ (requests s' = requests s
      \/ exists q, requests s' = requests s ++ [q] /\ is_nucleotide_fetch q = true)
  /\ self s' = self s
  /\ files s' = files s
  /\ frames s' = frames s
  /\ figures s' = figures s.
Proof.
  unfold fetch_records. run_py.
  destruct (self_webenv (self s)) as [w|], (self_query_key (self s)) as [k|]; simpl; run_py;
    try (repeat split; try done; by eauto).
  destruct (efetch_parse srv start (Z.min max_records 500) w k); run_py;
    repeat split; try done; eauto.
Qed.

(** X12.  When the fetch call or its parser raises, [fetch_records]
    swallows the exception: it returns the empty list and prints the error
    text.  The request had been sent all the same. *)
Theorem fetch_records_error (srv : Remote) (start max_records : Z) (s : State)
    (w k : string) (e : exn) :
  self_webenv (self s) = Some w ->
  self_query_key (self s) = Some k ->
  efetch_parse srv start (Z.min max_records 500) w k = Raise e ->
  let s' := snd (fetch_records srv start max_records s) in
  fst (fetch_records srv start max_records s) = Ret []
  /\ stdout s' = stdout s ++ ["Error fetching records: " +:+ str_exn e]
  /\ requests s'
     = requests s ++ [EfetchNucleotide "gb" "text" start (Z.min max_records 500) w k].
Proof.
  intros Hw Hk He. unfold fetch_records. run_py. rewrite Hw, Hk. simpl. run_py.
  rewrite He. run_py. done.
Qed.

Lemma fetch_records_error_witness :
  efetch_parse sample_fetch_down 0 (Z.min 10 500) "WE" "1"
    = Raise (IOError "HTTP Error 502: Bad Gateway")
  /\ fst (fetch_records sample_fetch_down 0 10 sample_session_state) = Ret [].
Proof.
  split; [reflexivity|].
  destruct (fetch_records_error sample_fetch_down 0 10 sample_session_state "WE" "1"
              (IOError "HTTP Error 502: Bad Gateway") eq_refl eq_refl eq_refl) as (H & _).
  exact H.
Defined.

(** X13.  Search and fetch compose through the retriever's attributes:
    after a successful search, [fetch_records] sends its request with the
    token and query key of that search, whatever session was stored before
    it, and returns the records the service answers with, in the service's
    order (the empty list if the fetch fails). *)
Theorem search_then_fetch (srv : Remote) (taxid : string) (start max_records : Z)
    (s : State) (name : string) (sr : SearchResults) (c : Z) (w k : string) :
  organism_name_of srv taxid = Ret name ->
  esearch_read srv (search_term taxid) "y" = Ret sr ->
  Count sr = Ret c -> c <> 0 ->
  WebEnv sr = Some w -> QueryKey sr = Some k ->
  let run := (search_taxid srv taxid >> fetch_records srv start max_records) s in
  fst run = Ret (fetched srv start max_records w k)
  /\ requests (snd run)
     = requests s ++ [EfetchTaxonomy taxid;
                      EsearchNucleotide (search_term taxid) "y";
                      EfetchNucleotide "gb" "text" start (Z.min max_records 500) w k].
Proof.
  intros Hname Hsr Hc Hnz Hw Hk. simpl.
  rewrite (bind_run _ _ _ _ _ (search_taxid_found_state _ _ s _ _ _ _ _ Hname Hsr Hc Hnz Hw Hk)).
  match goal with |- context [fetch_records _ _ _ ?st] => set (s1 := st) end.
  destruct (fetch_records_session srv start max_records s1 w k eq_refl eq_refl)
    as (Hret & Hreq & _).
  split; [exact Hret|]. rewrite Hreq. simpl. by rewrite <- app_assoc.
Qed.

Lemma search_then_fetch_witness :
  organism_name_of (sample_service 3) "9606" = Ret "Homo sapiens"
  /\ fst ((search_taxid (sample_service 3) "9606" >> fetch_records (sample_service 3) 0 750)
            initial_state)
     = Ret (fetched (sample_service 3) 0 750 "WE" "1").
Proof.
  assert (organism_name_of (sample_service 3) "9606" = Ret "Homo sapiens") as Hname
    by (vm_compute; reflexivity).
  split; [exact Hname|].
  assert (3 <> 0) as Hnz by lia.
  destruct (search_then_fetch (sample_service 3) "9606" 0 750 initial_state
              "Homo sapiens" (mkSearchResults (Ret 3) (Some "WE") (Some "1")) 3 "WE" "1"
              Hname eq_refl eq_refl Hnz eq_refl eq_refl) as (H & _).
  exact H.
Defined.

(* ===================================================================== *)
(** ** More on the chart *)
(* ===================================================================== *)

(** X14.  Called on a plot name as [main] builds it (it ends in
    [_plot.png], so the image format is PNG and the name is used as it
    is), a call of [plot_lengths] that returns normally has closed the
    figure it opened: the open figures afterwards are those from before.
    It has written the image under that name, replacing what was there,
    and touched no other file; it has sent nothing, printed nothing and
    left the retriever alone. *)
Theorem plot_lengths_effects (df : nat) (taxid : string) (s : State) (given : DataFrame) :
  frames s !! df = Some given ->
  fst (plot_lengths df (plot_name taxid) s) = Ret tt ->
  let s' := snd (plot_lengths df (plot_name taxid) s) in
  figures s' = figures s
  /\ (exists fig, files s' = <[plot_name taxid := ImageFile fig]> (files s))
  /\ (forall other : string, other <> plot_name taxid -> files s' !! other = files s !! other)
  /\ requests s' = requests s
  /\ stdout s' = stdout s
  /\ self s' = self s.
Proof.
  intros Hdf _. rewrite (plot_lengths_run _ _ _ _ Hdf). simpl.
  repeat split; try done; [by eexists|].
  intros other Hne. by rewrite lookup_insert_ne.
Qed.

Lemma plot_lengths_effects_witness :
  frames sample_table_state !! 0%nat = Some sample_table
  /\ fst (plot_lengths 0 (plot_name "9606") sample_table_state) = Ret tt
  /\ figures (snd (plot_lengths 0 (plot_name "9606") sample_table_state))
     = figures sample_table_state.
Proof.
  split; [reflexivity|]. split; [reflexivity|].
  destruct (plot_lengths_effects 0 "9606" sample_table_state sample_table eq_refl eq_refl)
    as (H & _).
  exact H.
Defined.

Lemma combine_columns (table : list Row) :
  combine (map Accession table) (map Length table) = points table.
Proof.
  unfold points. induction table as [|row table IH]; simpl; [done|]. by rewrite IH.
Qed.

Lemma lengths_descending (table : list Row) :
  StronglySorted longer_first table ->
  StronglySorted (fun a b : Z => b <= a) (map Length table).
Proof.
  induction 1 as [|row table _ IH Hrow]; simpl; constructor; [done|].
  apply Forall_forall. intros len Hin.
  apply list_elem_of_In, in_map_iff in Hin as (other & <- & Hin).
  rewrite Forall_forall in Hrow. apply Hrow. by apply list_elem_of_In.
Qed.

(** X15.  The image holds one line with one point per row of the table:
    the accessions on the x axis and the lengths on the y axis pair up to
    the table's (accession, length) pairs, each as often as in the table,
    and the lengths never increase from left to right. *)
Theorem plot_lengths_series (df : nat) (output_file : string) (s : State)
    (given : DataFrame) :
  frames s !! df = Some given ->
  exists (fig : Figure) (xs : list string) (ys : list Z),
    files (snd (plot_lengths df output_file s)) !! output_file = Some (ImageFile fig)
    /\ lines fig = [(xs, ys, "o")]
    /\ length xs = length (rows given)
    /\ length ys = length (rows given)
    /\ combine xs ys ≡ₚ points (rows given)
    /\ StronglySorted (fun a b : Z => b <= a) ys.
Proof.
  intros Hdf. rewrite (plot_lengths_run _ _ _ _ Hdf). simpl.
  eexists _, _, _. split; [by rewrite lookup_insert_eq|]. simpl. split; [done|].
  pose proof (sort_rows_permutation (rows given)) as Hperm.
  rewrite !length_map, combine_columns.
  repeat split.
  - by rewrite Hperm.
  - by rewrite Hperm.
  - unfold points. by apply Permutation_map.
  - apply lengths_descending, sort_rows_sorted.
Qed.

Lemma plot_lengths_series_witness :
  frames sample_table_state !! 0%nat = Some sample_table
  /\ exists (fig : Figure) (xs : list string) (ys : list Z),
       files (snd (plot_lengths 0 "plot.png" sample_table_state)) !! "plot.png"
       = Some (ImageFile fig)
       /\ lines fig = [(xs, ys, "o")]
       /\ length xs = length (rows sample_table)
       /\ length ys = length (rows sample_table)
       /\ combine xs ys ≡ₚ points (rows sample_table)
       /\ StronglySorted (fun a b : Z => b <= a) ys.
Proof.
  split; [reflexivity|].
  apply (plot_lengths_series 0 "plot.png" sample_table_state sample_table). reflexivity.
Defined.

(* ===================================================================== *)
(** ** Output file names *)
(* ===================================================================== *)

Lemma list_of_append (a b : string) :
  list_ascii_of_string (a +:+ b) = list_ascii_of_string a ++ list_ascii_of_string b.
Proof. induction a as [|ch a IH]; simpl; [done|]. by rewrite IH. Qed.

Lemma list_of_string_inj (a b : string) :
  list_ascii_of_string a = list_ascii_of_string b -> a = b.
Proof.
  intros H. rewrite <- (string_of_list_ascii_of_string a), H.
  apply string_of_list_ascii_of_string.
Qed.

Lemma append_cancel_r (a b suffix : string) : a +:+ suffix = b +:+ suffix -> a = b.
Proof.
  intros H. apply list_of_string_inj.
  apply (f_equal list_ascii_of_string) in H. rewrite !list_of_append in H.
  by apply app_inv_tail in H.
Qed.

(** X16.  The output names keep runs apart: two different identifiers
    never share a CSV name or a plot name, and no CSV name is ever a plot
    name, so the chart cannot overwrite a table. *)
Theorem output_names_distinct (t1 t2 : string) :
  (csv_name t1 = csv_name t2 -> t1 = t2)
  /\ (plot_name t1 = plot_name t2 -> t1 = t2)
  /\ csv_name t1 <> plot_name t2.
Proof.
  unfold csv_name, plot_name. repeat split.
  - intros H. by apply append_cancel, append_cancel_r in H.
  - intros H. by apply append_cancel, append_cancel_r in H.
  - intros H. apply append_cancel in H.
    apply (f_equal list_ascii_of_string) in H. rewrite !list_of_append in H.
    change (list_ascii_of_string "_filtered.csv")
      with (list_ascii_of_string "_filtered.cs" ++ ["v"%char]) in H.
    change (list_ascii_of_string "_plot.png")
      with (list_ascii_of_string "_plot.pn" ++ ["g"%char]) in H.
    rewrite !app_assoc in H. apply app_inj_tail in H as [_ H]. discriminate H.
Qed.

(* ===================================================================== *)
(** ** More on the pipeline *)
(* ===================================================================== *)

(** [main] from the point where the search has returned a count. *)
Lemma main_after_search (srv : Remote) (inp : Inputs) (s s1 : State) (c : Z) (w k : string) :
  search_taxid srv (taxid inp) (started inp s) = (Ret (Some c), s1) ->
  c <> 0 ->
  self_webenv (self s1) = Some w ->
  self_query_key (self s1) = Some k ->
  let table := mkDataFrame result_columns
                 (collect (fetched srv 0 50 w k) (min_len inp) (max_len inp)) in
  let s' := snd (main srv inp s) in
  fst (main srv inp s) = Ret tt
  /\ files s' = with_outputs srv inp w k (files s1)
  /\ frames s' = frames s1 ++ [table; sort_values_length_desc table]
  /\ requests s' = requests s1 ++ [EfetchNucleotide "gb" "text" 0 50 w k]
  /\ self s' = self s1
  /\ figures s' = figures s1.
Proof.
  intros Hsearch Hc Hw Hk table s'. subst s'. rewrite main_eq, Hsearch.
  cbn [falsy]. apply Z.eqb_neq in Hc. rewrite Hc.
  rewrite bind_print.
  set (s2 := set_stdout _ s1).
  pose proof (fetch_records_session srv 0 50 s2 w k Hw Hk)
    as (Hrec & Hreq & Hf3 & Hfr3 & Hfig3 & Hself3).
  destruct (fetch_records srv 0 50 s2) as [rr s3] eqn:E3.
  simpl in Hrec, Hreq, Hf3, Hfr3, Hfig3, Hself3. subst rr.
  rewrite (bind_run _ _ _ _ _ E3).
  rewrite (bind_run _ _ _ _ _ (save_to_csv_run _ _ _ _ _)).
  rewrite bind_print.
  erewrite bind_run; [|apply plot_lengths_run; simpl; by apply list_lookup_middle].
  unfold print, modify, with_outputs. simpl.
  rewrite Hf3, Hfr3, Hreq, Hfig3, Hself3.
  repeat split; try done. by rewrite <- app_assoc.
Qed.

(** X17.  A run of [main] whose search succeeds asks for one batch only,
    the first 50 records, whatever count the search reported; it returns
    normally having written exactly the two output files, built the table
    and a sorted copy of it, and closed its figure.  The CSV holds the
    table; the plot is drawn from the copy, which has the table's columns
    and the table's rows in descending order of length (rows of equal
    length in some order). *)
Theorem main_success (srv : Remote) (inp : Inputs) (s : State)
    (name : string) (sr : SearchResults) (c : Z) (w k : string) :
  organism_name_of srv (taxid inp) = Ret name ->
  esearch_read srv (search_term (taxid inp)) "y" = Ret sr ->
  Count sr = Ret c -> c <> 0 ->
  WebEnv sr = Some w -> QueryKey sr = Some k ->
  let table := mkDataFrame result_columns
                 (collect (fetched srv 0 50 w k) (min_len inp) (max_len inp)) in
  let s' := snd (main srv inp s) in
  fst (main srv inp s) = Ret tt
  /\ requests s'
     = requests s ++ [EfetchTaxonomy (taxid inp);
                      EsearchNucleotide (search_term (taxid inp)) "y";
                      EfetchNucleotide "gb" "text" 0 50 w k]
  /\ figures s' = figures s
  /\ exists sorted : DataFrame,
       columns sorted = columns table
       /\ rows sorted ≡ₚ rows table
       /\ StronglySorted (fun a b : Row => Length b <= Length a) (rows sorted)
       /\ frames s' = frames s ++ [table; sorted]
       /\ files s'
          = <[plot_name (taxid inp) := ImageFile (lengths_figure sorted)]>
              (<[csv_name (taxid inp) := CsvFile (columns table) (rows table)]> (files s)).
Proof.
  intros Hname Hsr Hc Hnz Hw Hk table s'.
  pose proof (search_taxid_found_state srv (taxid inp) (started inp s) _ _ _ _ _
                Hname Hsr Hc Hnz Hw Hk) as Hsearch.
  destruct (main_after_search srv inp s _ c w k Hsearch Hnz eq_refl eq_refl)
    as (Hret & Hfiles & Hframes & Hreq & _ & Hfig).
  subst s'. rewrite Hret, Hfiles, Hframes, Hreq, Hfig. simpl.
  split; [done|]. split; [by rewrite <- app_assoc|]. split; [done|].
  exists (sort_values_length_desc table). simpl.
  split; [done|]. split; [apply sort_rows_permutation|].
  split; [apply sort_rows_sorted|]. done.
Qed.

Lemma main_success_witness :
  organism_name_of (sample_service 3) (taxid sample_inputs) = Ret "Homo sapiens"
  /\ requests (snd (main (sample_service 3) sample_inputs initial_state))
     = requests initial_state
       ++ [EfetchTaxonomy (taxid sample_inputs);
           EsearchNucleotide (search_term (taxid sample_inputs)) "y";
           EfetchNucleotide "gb" "text" 0 50 "WE" "1"].
Proof.
  assert (organism_name_of (sample_service 3) (taxid sample_inputs) = Ret "Homo sapiens")
    as Hname by (vm_compute; reflexivity).
  split; [exact Hname|].
  assert (3 <> 0) as Hnz by lia.
  destruct (main_success (sample_service 3) sample_inputs initial_state
              "Homo sapiens" (mkSearchResults (Ret 3) (Some "WE") (Some "1")) 3 "WE" "1"
              Hname eq_refl eq_refl Hnz eq_refl eq_refl) as (_ & H & _).
  exact H.
Defined.

(** X18.  A failed fetch does not stop [main]: after a successful search
    whose fetch raises, the run still ends normally, the CSV file is
    written with the header row only, and the plot is written with an
    empty line. *)
Theorem main_fetch_failure (srv : Remote) (inp : Inputs) (s : State)
    (name : string) (sr : SearchResults) (c : Z) (w k : string) (e : exn) :
  organism_name_of srv (taxid inp) = Ret name ->
  esearch_read srv (search_term (taxid inp)) "y" = Ret sr ->
  Count sr = Ret c -> c <> 0 ->
  WebEnv sr = Some w -> QueryKey sr = Some k ->
  efetch_parse srv 0 50 w k = Raise e ->
  let s' := snd (main srv inp s) in
  fst (main srv inp s) = Ret tt
  /\ files s' !! csv_name (taxid inp) = Some (CsvFile result_columns [])
  /\ (exists fig, files s' !! plot_name (taxid inp) = Some (ImageFile fig)
                  /\ lines fig = [([], [], "o")]).
Proof.
  intros Hname Hsr Hc Hnz Hw Hk He s'.
  pose proof (search_taxid_found_state srv (taxid inp) (started inp s) _ _ _ _ _
                Hname Hsr Hc Hnz Hw Hk) as Hsearch.
  destruct (main_after_search srv inp s _ c w k Hsearch Hnz eq_refl eq_refl)
    as (Hret & Hfiles & _).
  subst s'. rewrite Hret, Hfiles. unfold with_outputs.
  assert (fetched srv 0 50 w k = []) as ->.
  { unfold fetched. change (Z.min 50 500) with 50. by rewrite He. }
  split; [done|]. split.
  - rewrite lookup_insert_ne by (apply not_eq_sym, csv_name_not_plot_name).
    by rewrite lookup_insert_eq.
  - eexists. rewrite lookup_insert_eq. split; [reflexivity|]. reflexivity.
Qed.

Lemma main_fetch_failure_witness :
  efetch_parse sample_fetch_down 0 50 "WE" "1" = Raise (IOError "HTTP Error 502: Bad Gateway")
  /\ files (snd (main sample_fetch_down sample_inputs initial_state))
       !! csv_name (taxid sample_inputs)
     = Some (CsvFile result_columns []).
Proof.
  split; [reflexivity|].
  assert (organism_name_of sample_fetch_down (taxid sample_inputs) = Ret "Homo sapiens")
    as Hname by (vm_compute; reflexivity).
  assert (3 <> 0) as Hnz by lia.
  destruct (main_fetch_failure sample_fetch_down sample_inputs initial_state
              "Homo sapiens" (mkSearchResults (Ret 3) (Some "WE") (Some "1")) 3 "WE" "1"
              (IOError "HTTP Error 502: Bad Gateway")
              Hname eq_refl eq_refl Hnz eq_refl eq_refl eq_refl) as (_ & H & _).
  exact H.
Defined.

(** X19.  [main] writes its two files together or not at all: whatever
    the service answers, after a run that ends normally the figure is
    closed and the file system is either untouched or has both the CSV and
    the plot written over it, nothing else changed.  (A run that does not
    end normally, because a file cannot be written, is not described.) *)
Theorem main_all_or_nothing (srv : Remote) (inp : Inputs) (s : State) :
  fst (main srv inp s) = Ret tt ->
  let s' := snd (main srv inp s) in
  figures s' = figures s
  /\ (files s' = files s
      \/ exists (body : list Row) (fig : Figure),
           files s' = <[plot_name (taxid inp) := ImageFile fig]>
                        (<[csv_name (taxid inp) := CsvFile result_columns body]> (files s))).
Proof.
  intros _.
  pose proof (search_taxid_outcome srv (taxid inp) (started inp s))
    as (Hf & _ & Hfig & _ & _ & Hres).
  destruct (search_taxid srv (taxid inp) (started inp s)) as [r s1] eqn:Hsearch.
  simpl in Hf, Hfig, Hres.
  destruct r as [[c|]|e]; [| |done].
  - destruct Hres as (Hnz & sr & w & k & _ & _ & _ & _ & Hself).
    assert (self_webenv (self s1) = Some w) as Hw by by rewrite Hself.
    assert (self_query_key (self s1) = Some k) as Hk by by rewrite Hself.
    destruct (main_after_search srv inp s s1 c w k Hsearch Hnz Hw Hk)
      as (_ & Hfiles & _ & _ & _ & Hfig').
    simpl. rewrite Hfiles, Hfig', Hfig, Hf.
    split; [done|]. right. unfold with_outputs. by eexists _, _.
  - simpl. rewrite main_eq, Hsearch. simpl. auto.
Qed.

Lemma main_all_or_nothing_witness :
  fst (main (sample_service 3) sample_inputs initial_state) = Ret tt
  /\ figures (snd (main (sample_service 3) sample_inputs initial_state))
     = figures initial_state.
Proof.
  assert (fst (main (sample_service 3) sample_inputs initial_state) = Ret tt) as Hret
    by (vm_compute; reflexivity).
  split; [exact Hret|].
  destruct (main_all_or_nothing (sample_service 3) sample_inputs initial_state Hret)
    as (H & _).
  exact H.
Defined.

(** The value [search_taxid] returns depends on the service alone, not on
    the state it is called in. *)
Lemma search_taxid_value_stateless (srv : Remote) (taxid : string) (s1 s2 : State) :
  fst (search_taxid srv taxid s1) = fst (search_taxid srv taxid s2).
Proof.
  unfold search_taxid. run_py.
  destruct (taxonomy_read srv taxid) as [[|record0 rest]|e]; run_py; try done.
  destruct (record0 !! "ScientificName") as [name|]; run_py; try done.
  destruct (esearch_read srv (search_term taxid) "y") as [sr|e]; run_py; try done.
  destruct (Count sr) as [c|e]; run_py; try done.
  destruct (c =? 0); run_py; try done.
  destruct (WebEnv sr) as [w|]; run_py; try done.
  destruct (QueryKey sr) as [k|]; run_py; done.
Qed.

(** What a run of [main] does to the files is the same from every
    state: nothing, or both outputs of one fixed session. *)
Lemma main_files_cases (srv : Remote) (inp : Inputs) :
  (forall s, files (snd (main srv inp s)) = files s)
  \/ (exists w k, forall s, files (snd (main srv inp s)) = with_outputs srv inp w k (files s)).
Proof.
  pose proof (search_taxid_outcome srv (taxid inp) (started inp initial_state))
    as (_ & _ & _ & _ & _ & Hres0).
  destruct (fst (search_taxid srv (taxid inp) (started inp initial_state)))
    as [[c|]|e] eqn:Hfst0; [| |done].
  - destruct Hres0 as (Hnz & sr & w & k & Hsr & _ & Hw & Hk & _).
    right. exists w, k. intros s.
    pose proof (search_taxid_outcome srv (taxid inp) (started inp s))
      as (Hf & _ & _ & _ & _ & Hres).
    rewrite (search_taxid_value_stateless srv (taxid inp) _ (started inp initial_state)),
      Hfst0 in Hres.
    destruct Hres as (_ & sr' & w' & k' & Hsr' & _ & Hw' & Hk' & Hself).
    rewrite Hsr in Hsr'. injection Hsr' as <-.
    rewrite Hw in Hw'. injection Hw' as <-. rewrite Hk in Hk'. injection Hk' as <-.
    destruct (search_taxid srv (taxid inp) (started inp s)) as [r s1] eqn:Hsearch.
    pose proof (search_taxid_value_stateless srv (taxid inp) (started inp s)
                  (started inp initial_state)) as Hsame.
    rewrite Hsearch, Hfst0 in Hsame. simpl in Hsame, Hself, Hf. subst r.
    assert (self_webenv (self s1) = Some w) as Hw1 by by rewrite Hself.
    assert (self_query_key (self s1) = Some k) as Hk1 by by rewrite Hself.
    destruct (main_after_search srv inp s s1 c w k Hsearch Hnz Hw1 Hk1)
      as (_ & Hfiles & _).
    by rewrite Hfiles, Hf.
  - left. intros s.
    pose proof (search_taxid_outcome srv (taxid inp) (started inp s)) as (Hf & _).
    pose proof (search_taxid_value_stateless srv (taxid inp) (started inp s)
                  (started inp initial_state)) as Hsame.
    rewrite Hfst0 in Hsame. rewrite main_eq.
    destruct (search_taxid srv (taxid inp) (started inp s)) as [r s1].
    simpl in Hsame, Hf. subst r. simpl. done.
Qed.

(** X20.  Running [main] again with the same answers and against the
    same service overwrites: the file system after the second run is the
    one the first run left, the two output files holding the rows of one
    run, not of two. *)
Theorem main_rerun_overwrites (srv : Remote) (inp : Inputs) (s : State) :
  files (snd (main srv inp (snd (main srv inp s)))) = files (snd (main srv inp s)).
Proof.
  destruct (main_files_cases srv inp) as [Hsame|(w & k & Hout)].
  - by rewrite !Hsame.
  - rewrite !Hout. unfold with_outputs. simpl.
    rewrite (insert_insert_ne _ (csv_name (taxid inp)) (plot_name (taxid inp)))
      by apply csv_name_not_plot_name.
    by rewrite !insert_insert_eq.
Qed.

(** X21.  When the taxonomy lookup fails, [main] stops early: it sends
    that one request only, writes no file, builds no table, and ends
    normally after printing that it exits. *)
Theorem main_lookup_failure (srv : Remote) (inp : Inputs) (s : State) (e : exn) :
  organism_name_of srv (taxid inp) = Raise e ->
  let s' := snd (main srv inp s) in
  fst (main srv inp s) = Ret tt
  /\ requests s' = requests s ++ [EfetchTaxonomy (taxid inp)]
  /\ files s' = files s
  /\ frames s' = frames s
  /\ last (stdout s') = Some "No records found. Exiting.".
Proof.
  intros Hname s'. subst s'.
  pose proof (search_taxid_lookup_none srv (taxid inp) (started inp s) e Hname)
    as (Hret & Hreq).
  pose proof (search_taxid_outcome srv (taxid inp) (started inp s)) as (Hf & Hfr & _).
  rewrite main_eq.
  destruct (search_taxid srv (taxid inp) (started inp s)) as [r s1].
  simpl in Hret, Hreq, Hf, Hfr. subst r. simpl.
  rewrite Hreq, Hf, Hfr. repeat split; try done. apply last_snoc.
Qed.

Lemma main_lookup_failure_witness :
  organism_name_of sample_unknown_taxon (taxid sample_inputs)
    = Raise (IndexError "list index out of range")
  /\ files (snd (main sample_unknown_taxon sample_inputs initial_state))
     = files initial_state.
Proof.
  split; [reflexivity|].
  destruct (main_lookup_failure sample_unknown_taxon sample_inputs initial_state
              (IndexError "list index out of range") eq_refl) as (_ & _ & H & _).
  exact H.
Defined.

(* ===================================================================== *)
(** ** The console in front of the pipeline *)
(* ===================================================================== *)

(** X22.  A length that is no integer stops the program before it does
    anything: when [int] raises on the minimum, or on the maximum after
    the minimum was accepted, [main] ends in that exception, no retriever
    has been built, no [Entrez] setting assigned, no request sent and no
    file written. *)
Theorem main_console_bad_length (py_int : string -> result Z) (srv : Remote) (s : State)
    (email_text key_text taxid_text min_text max_text : string) (rest : list string)
    (err : exn) :
  py_int min_text = Raise err
  \/ ((exists lo, py_int min_text = Ret lo) /\ py_int max_text = Raise err) ->
  let run := main_console py_int srv
               (email_text :: key_text :: taxid_text :: min_text :: max_text :: rest) s in
  fst run = Raise err
  /\ requests (snd run) = requests s
  /\ files (snd run) = files s
  /\ frames (snd run) = frames s
  /\ entrez_config (snd run) = entrez_config s
  /\ self (snd run) = self s.
Proof.
  intros [Hmin|[[lo Hmin] Hmax]]; unfold main_console, input; run_py;
    rewrite Hmin; run_py; [done|].
  rewrite Hmax. run_py. done.
Qed.

Lemma main_console_bad_length_witness :
  (sample_int "abc" = Raise (ValueError "invalid literal for int() with base 10: 'abc'")
   \/ ((exists lo, sample_int "abc" = Ret lo)
       /\ sample_int "1000"
          = Raise (ValueError "invalid literal for int() with base 10: 'abc'")))
  /\ requests (snd (main_console sample_int (sample_service 3)
                      ["a@b.c"; "key"; "9606"; "abc"; "1000"] initial_state))
     = requests initial_state.
Proof.
  assert (sample_int "abc" = Raise (ValueError "invalid literal for int() with base 10: 'abc'")
          \/ ((exists lo, sample_int "abc" = Ret lo)
              /\ sample_int "1000"
                 = Raise (ValueError "invalid literal for int() with base 10: 'abc'")))
    as Hbad by (left; reflexivity).
  split; [exact Hbad|].
  destruct (main_console_bad_length sample_int (sample_service 3) initial_state
              "a@b.c" "key" "9606" "abc" "1000" []
              (ValueError "invalid literal for int() with base 10: 'abc'") Hbad)
    as (_ & H & _).
  exact H.
Defined.

(** X23.  With five answers of which the two lengths are integers, the
    whole of [main] is its five prompts followed by the pipeline on the
    answers: e-mail, key and identifier as typed, the lengths as [int]
    read them.  Answers beyond the fifth are not looked at. *)
Theorem main_console_runs_pipeline (py_int : string -> result Z) (srv : Remote) (s : State)
    (email_text key_text taxid_text min_text max_text : string) (rest : list string)
    (lo hi : Z) :
  py_int min_text = Ret lo ->
  py_int max_text = Ret hi ->
  main_console py_int srv
    (email_text :: key_text :: taxid_text :: min_text :: max_text :: rest) s
  = main srv (mkInputs email_text key_text taxid_text lo hi)
      (set_stdout (stdout s ++ prompts) s).
Proof.
  intros Hmin Hmax. unfold main_console, input. run_py.
  rewrite Hmin. run_py. rewrite Hmax. run_py.
  f_equal. unfold set_stdout, prompts. simpl. by rewrite <- !app_assoc.
Qed.

Lemma main_console_runs_pipeline_witness :
  (sample_int "100" = Ret 100 /\ sample_int "1000" = Ret 1000)
  /\ main_console sample_int (sample_service 3)
       ["a@b.c"; "key"; "9606"; "100"; "1000"] initial_state
     = main (sample_service 3) sample_inputs
         (set_stdout (stdout initial_state ++ prompts) initial_state).
Proof.
  split; [split; reflexivity|].
  apply (main_console_runs_pipeline sample_int (sample_service 3) initial_state
           "a@b.c" "key" "9606" "100" "1000" [] 100 1000); reflexivity.
Defined.

(** X24.  When standard input ends before the fourth answer, [main] ends
    in [EOFError]: nothing has been converted, no retriever built, no
    request sent and no file written. *)
Theorem main_console_eof (py_int : string -> result Z) (srv : Remote) (s : State)
    (stdin : list string) :
  (length stdin < 4)%nat ->
  let run := main_console py_int srv stdin s in
  fst run = Raise (EOFError "EOF when reading a line")
  /\ requests (snd run) = requests s
  /\ files (snd run) = files s
  /\ entrez_config (snd run) = entrez_config s.
Proof.
  intros Hlen. unfold main_console, input.
  destruct stdin as [|a1 [|a2 [|a3 [|a4 rest]]]]; simpl in Hlen; try lia;
    run_py; done.
Qed.

Lemma main_console_eof_witness :
  (length ["a@b.c"; "key"] < 4)%nat
  /\ fst (main_console sample_int (sample_service 3) ["a@b.c"; "key"] initial_state)
     = Raise (EOFError "EOF when reading a line").
Proof.
  assert (length ["a@b.c"; "key"] < 4)%nat as Hlen by (simpl; lia).
  split; [exact Hlen|].
  destruct (main_console_eof sample_int (sample_service 3) initial_state
              ["a@b.c"; "key"] Hlen) as (H & _).
  exact H.
Defined.

Example sample_sort_keeps_ties :
  rows (sort_values_length_desc
          (mkDataFrame result_columns [("a", 5, "x"); ("b", 7, "x"); ("c", 5, "x"); ("d", 7, "x")]))
  = [("b", 7, "x"); ("d", 7, "x"); ("a", 5, "x"); ("c", 5, "x")].
Proof. reflexivity. Qed.
